(** * CryoTempMonitor: the acquisition session and its GUI controller

    A shallow embedding of [backend.py] (class [Session]) and of the parts of
    [interface.py] that drive it ([MainWindow.startmiu], [stopmiu],
    [finished], [show_plot], [PlotWindow]).

    Python floats are IEEE binary64 values: they are modelled by Rocq's
    primitive floats, whose operations are the same binary64 operations.
    Stateful code is written in a state-and-exception monad over a [world]
    that holds the [Session] object, the [MainWindow] object and the trace of
    everything the program does to its collaborators (instrument, file,
    console, plot window, clocks). *)

From Stdlib Require Import ZArith List String Ascii Bool Lia.
From Stdlib Require Import Floats Uint63.
Import ListNotations.

Set Warnings "-inexact-float".
Open Scope string_scope.
Open Scope Z_scope.

(** ** Characters and decimal digits *)

Definition tab : string := String "009"%char EmptyString.
Definition nl : string := String "010"%char EmptyString.

Definition digit_char (d : Z) : ascii := ascii_of_nat (48 + Z.to_nat (d mod 10)).

(** The [k] low decimal digits of [n], most significant first, zero padded:
    Python's [%0kd] for [0 <= n < 10^k]. *)
Fixpoint digits_fixed (k : nat) (n : Z) : string :=
  match k with
  | O => EmptyString
  | S k' => digits_fixed k' (n / 10) ++ String (digit_char n) EmptyString
  end.

Fixpoint string_of_uint (d : Decimal.uint) : string :=
  match d with
  | Decimal.Nil => EmptyString
  | Decimal.D0 d => String "0" (string_of_uint d)
  | Decimal.D1 d => String "1" (string_of_uint d)
  | Decimal.D2 d => String "2" (string_of_uint d)
  | Decimal.D3 d => String "3" (string_of_uint d)
  | Decimal.D4 d => String "4" (string_of_uint d)
  | Decimal.D5 d => String "5" (string_of_uint d)
  | Decimal.D6 d => String "6" (string_of_uint d)
  | Decimal.D7 d => String "7" (string_of_uint d)
  | Decimal.D8 d => String "8" (string_of_uint d)
  | Decimal.D9 d => String "9" (string_of_uint d)
  end.

(** Decimal numeral of a natural number ([str(n)] for [n >= 0]). *)
Definition decimal (n : Z) : string := string_of_uint (N.to_uint (Z.to_N n)).

(** ** Python floats *)

Module PyFloat.

(** [int -> float] conversion; exact below [2^53]. *)
Definition of_int (n : Z) : float :=
  if n <? 0 then PrimFloat.opp (PrimFloat.of_uint63 (Uint63.of_Z (- n)))
  else PrimFloat.of_uint63 (Uint63.of_Z n).

(** Round the rational [num / den] ([den > 0], [num >= 0]) to the nearest
    integer, ties to even. *)
Definition round_half_even (num den : Z) : Z :=
  let q := num / den in
  let r := num mod den in
  match 2 * r ?= den with
  | Lt => q
  | Gt => q + 1
  | Eq => if Z.even q then q else q + 1
  end.

(** The magnitude [m * 2^e] scaled by [10^prec] and rounded to an integer. *)
Definition scaled (prec : nat) (m : positive) (e : Z) : Z :=
  let p := 10 ^ Z.of_nat prec in
  if 0 <=? e then Z.pos m * 2 ^ e * p
  else round_half_even (Z.pos m * p) (2 ^ (- e)).

Definition fixed_point (prec : nat) (q : Z) : string :=
  let p := 10 ^ Z.of_nat prec in
  decimal (q / p) ++
  match prec with
  | O => EmptyString
  | _ => "." ++ digits_fixed prec (q mod p)
  end.

(** The format specification [:.<prec>f]: correctly rounded fixed-point
    notation, [nan], [inf] and [-inf] for the special values. *)
Definition format_f (prec : nat) (x : float) : string :=
  match Prim2SF x with
  | S754_nan => "nan"
  | S754_infinity s => if s then "-inf" else "inf"
  | S754_zero s => (if s then "-" else "") ++ fixed_point prec 0
  | S754_finite s m e => (if s then "-" else "") ++ fixed_point prec (scaled prec m e)
  end.

End PyFloat.

(** ** Exceptions *)

Inductive exn : Type :=
| ValueError (msg : string)
| ZeroDivisionError
| TypeError
| AttributeError
| VisaIOError.

(** [math.sqrt]: CPython's wrapper around the C library's [sqrt]; a NaN
    result for a non-NaN argument, and an infinite result for a finite one,
    are reported as [ValueError("math domain error")]. *)
Definition math_sqrt (x : float) : exn + float :=
  let r := PrimFloat.sqrt x in
  if is_nan r && negb (is_nan x) then inl (ValueError "math domain error")
  else if is_infinity r && is_finite x then inl (ValueError "math domain error")
  else inr r.

(** ** [datetime] and [timedelta] *)

Module DateTime.

(** A naive [datetime]; the date is kept as its proleptic ordinal
    ([datetime.toordinal]). *)
Record datetime : Type := mkdatetime {
  ordinal : Z;
  hour : Z;
  minute : Z;
  second : Z;
  microsecond : Z
}.

Record timedelta : Type := mktimedelta {
  days : Z;
  seconds : Z;
  microseconds : Z
}.

(** [timedelta(days, seconds, microseconds)] with the constructor's
    normalisation: [0 <= microseconds < 10^6], [0 <= seconds < 86400]. *)
Definition new_delta (d s us : Z) : timedelta :=
  let s1 := s + us / 1000000 in
  mktimedelta (d + s1 / 86400) (s1 mod 86400) (us mod 1000000).

(** [left - right] on two datetimes. *)
Definition sub (l r : datetime) : timedelta :=
  new_delta (ordinal l - ordinal r)
            ((hour l - hour r) * 3600 + (minute l - minute r) * 60 + (second l - second r))
            (microsecond l - microsecond r).

(** [dt + factor * td], fields carried from microseconds up to the date. *)
Definition add_timedelta (dt : datetime) (td : timedelta) (factor : Z) : datetime :=
  let us := microsecond dt + microseconds td * factor in
  let s := second dt + seconds td * factor + us / 1000000 in
  let mi := minute dt + s / 60 in
  let h := hour dt + mi / 60 in
  mkdatetime (ordinal dt + days td * factor + h / 24)
             (h mod 24) (mi mod 60) (s mod 60) (us mod 1000000).

(** [strftime('%H:%M:%S.%f')]. *)
Definition strftime_HMSf (dt : datetime) : string :=
  digits_fixed 2 (hour dt) ++ ":" ++ digits_fixed 2 (minute dt) ++ ":" ++
  digits_fixed 2 (second dt) ++ "." ++ digits_fixed 6 (microsecond dt).

(** Position on the time line, in microseconds. *)
Definition to_us (dt : datetime) : Z :=
  (((ordinal dt * 24 + hour dt) * 60 + minute dt) * 60 + second dt) * 1000000
  + microsecond dt.


End DateTime.
Import DateTime.

(** ** Objects *)

(** [interface.PlotWindow]: the data of its [lines] artist, the text of its
    [heating_speed] label and the x-axis limits set on [ax]. *)
Record PlotWindow : Type := mkPlotWindow {
  lines_x : list datetime;
  lines_y : list float;
  heating_speed : string;
  xlim : option (datetime * datetime)
}.

(** [PlotWindow.__init__]. *)
Definition PlotWindow_init : PlotWindow :=
  mkPlotWindow [] [] "Heating speed: 0 ⁰C/s" None.

(** [backend.Session]; [smu] is [None] while the attribute has not been
    assigned. *)
Record Session : Type := mkSession {
  file : string;
  f : option PlotWindow;
  data : list (datetime * float);
  alive : bool;
  smu : option string
}.

(** [interface.MainWindow]: whether [messung] refers to a [Session] (it is
    the one of the [world]), the flag [aus], the two buttons [finished]
    enables and the status-bar message. *)
Record MainWindow : Type := mkMainWindow {
  messung : bool;
  aus : option bool;
  Button_start : bool;
  Button_end : bool;
  statusBar : string
}.

(** What the program does to its collaborators, in program order. *)
Inductive event : Type :=
| EvPrint (text : string)
| EvPrintDevices (devs : list string)
| EvOpenResource (dev : string)
| EvSmuWrite (cmd : string)
| EvSmuRead (resp : string)
| EvSmuClose
| EvFileOpen (path : string)
| EvFileWrite (text : string)
| EvFileClose
| EvTimer (t : float)
| EvNow (d : datetime)
| EvSleep (secs : float)
| EvShowPlot
| EvIsVisible (b : bool)
| EvSetXlim (lo hi : datetime)
| EvHeatingText (text : string)
| EvDraw
| EvFinished (b : bool) (status_text : string)
| EvQuestion (yes : bool)
| EvThreadStart.

Record world : Type := mkworld {
  sess : Session;
  win : MainWindow;
  trace : list event
}.

(** ** The state-and-exception monad *)

(** [Running]: the call has not returned by the end of the recorded
    environment (a [while] loop whose flag is still set). *)
Inductive outcome (A : Type) : Type :=
| Ok (a : A) (w : world)
| Raise (e : exn) (w : world)
| Running (w : world).
Arguments Ok {A} a w.
Arguments Raise {A} e w.
Arguments Running {A} w.

Definition M (A : Type) : Type := world -> outcome A.

Definition ret {A} (a : A) : M A := fun w => Ok a w.
Definition raise {A} (e : exn) : M A := fun w => Raise e w.
Definition bind {A B} (c : M A) (k : A -> M B) : M B :=
  fun w => match c w with
           | Ok a w' => k a w'
           | Raise e w' => Raise e w'
           | Running w' => Running w'
           end.

Notation "x <- c ;; k" := (bind c (fun x => k))
  (at level 61, c at next level, right associativity).
Notation "c ;; k" := (bind c (fun _ => k))
  (at level 61, right associativity).

Definition final {A} (o : outcome A) : world :=
  match o with Ok _ w | Raise _ w | Running w => w end.

Definition emit (e : event) : M unit :=
  fun w => Ok tt (mkworld (sess w) (win w) (trace w ++ [e])%list).
Definition get_sess : M Session := fun w => Ok (sess w) w.
Definition put_sess (s : Session) : M unit :=
  fun w => Ok tt (mkworld s (win w) (trace w)).
Definition get_win : M MainWindow := fun w => Ok (win w) w.
Definition put_win (m : MainWindow) : M unit :=
  fun w => Ok tt (mkworld (sess w) m (trace w)).
Definition lift {A} (r : exn + A) : M A :=
  match r with inl e => raise e | inr a => ret a end.

Definition set_alive (b : bool) : M unit :=
  s <- get_sess ;; put_sess (mkSession (file s) (f s) (data s) b (smu s)).
Definition set_f (p : PlotWindow) : M unit :=
  s <- get_sess ;; put_sess (mkSession (file s) (Some p) (data s) (alive s) (smu s)).
Definition set_smu (d : string) : M unit :=
  s <- get_sess ;; put_sess (mkSession (file s) (f s) (data s) (alive s) (Some d)).
Definition data_append (x : datetime * float) : M unit :=
  s <- get_sess ;; put_sess (mkSession (file s) (f s) (data s ++ [x])%list (alive s) (smu s)).

(** [print(text)]; [text] includes the [end] string. *)
Definition print (text : string) : M unit := emit (EvPrint text).

(** Truth value of a [str]. *)
Definition truthy (s : string) : bool := negb (String.eqb s "").

(** The commands and status messages the properties below refer to. *)
Definition output_on_cmd : string := "smua.source.output = smua.OUTPUT_ON".
Definition output_off_cmd : string := "smua.source.output = smua.OUTPUT_OFF".
Definition measure_cmd : string := "print(smua.measure.r())".
Definition status_closed : string := "Closed plotting window".
Definition status_manual : string := "Manually stopped".
Definition no_device_msg : string := "No device found. Please connect one.".

(** ** [MainWindow.finished] *)

Definition finished (boolean : bool) (status_text : string) : M unit :=
  m <- get_win ;;
  put_win (mkMainWindow (messung m) (aus m) boolean boolean status_text) ;;
  emit (EvFinished boolean status_text).

(** ** [Session] *)

(** [self.smu.write(cmd)]: [AttributeError] when [smu] was never assigned. *)
Definition smu_write (cmd : string) : M unit :=
  s <- get_sess ;;
  match smu s with
  | None => raise AttributeError
  | Some _ => emit (EvSmuWrite cmd)
  end.

(** [self.smu.read()]; the environment gives the response, or [None] when the
    read itself fails. *)
Definition smu_read (resp : option string) : M string :=
  s <- get_sess ;;
  match smu s with
  | None => raise AttributeError
  | Some _ =>
      match resp with
      | None => raise VisaIOError
      | Some r => emit (EvSmuRead r) ;; ret r
      end
  end.

(** [Session.prepare_plot]: [self.f = self.parent.show_plot()].  The event
    stands for the call of [show_plot], which creates the [PlotWindow] and
    also keeps it in [MainWindow.fig]; the one object is held in [f]. *)
Definition prepare_plot : M unit :=
  emit EvShowPlot ;; set_f PlotWindow_init.

(** [Session.connect_to_device]. *)
Definition connect_to_device (devs : list string) (n : nat) : M unit :=
  emit (EvPrintDevices devs) ;;
  match nth_error devs n with
  | Some d =>
      emit (EvOpenResource d) ;;
      set_smu d ;;
      print ("Connected to " ++ nth 0 devs "" ++ nl)
  | None =>
      print (no_device_msg ++ nl)
  end.

(** [Session.setup_device]. *)
Definition setup_device : M unit :=
  smu_write "*RST" ;;
  smu_write "smua.reset()" ;;
  smu_write "smua.source.func = smua.OUTPUT_DCAMPS" ;;
  smu_write "smua.source.leveli = 1e-3" ;;
  smu_write "smua.measure.autorangev = smua.AUTORANGE_ON" ;;
  smu_write "smua.measure.nplc = 5" ;;
  smu_write "smua.measure.delay = 0.1" ;;
  smu_write "smua.measure.rangev = 20" ;;
  smu_write "smua.measure.rangei = 1e-3" ;;
  smu_write "smua.measure.r(smua.nvbuffer1)".

(** [Session.reset_device]. *)
Definition reset_device : M unit :=
  smu_write "smua.reset()" ;;
  smu_write "smua.source.func = smua.OUTPUT_DCVOLTS" ;;
  smu_write "smua.source.levelv = 0.0" ;;
  smu_write "smua.source.autorangev = smua.AUTORANGE_ON" ;;
  smu_write "smua.measure.autorangei = smua.AUTORANGE_ON" ;;
  smu_write output_off_cmd.

(** [Session.__init__]. *)
Definition Session_init (file : string) (devs : list string) : M unit :=
  put_sess (mkSession file None [] true None) ;;
  connect_to_device devs 0 ;;
  reset_device ;;
  prepare_plot.

(** [Session.finish]. *)
Definition finish : M unit := set_alive false.

(** [Session.__del__]. *)
Definition Session_del : M unit :=
  reset_device ;;
  s <- get_sess ;;
  match smu s with
  | None => raise AttributeError
  | Some _ => emit EvSmuClose
  end.

(** The heating-speed window, [step] in [update_plot]. *)
Definition step : nat := 50.

(** The label text of line 62. *)
Definition heating_text (heating_speed : float) : string :=
  "Heating speed: " ++ PyFloat.format_f 2 heating_speed ++ " ⁰C/min".

(** Line 61; [None] is the [IndexError] the [try] swallows. *)
Definition heating_speed_of (x_data : list datetime) (y_data : list float)
  : option (exn + float) :=
  let i := List.length x_data in
  match nth_error y_data (i - 1), nth_error y_data (i - step - 1),
        nth_error x_data (i - 1), nth_error x_data (i - step - 1) with
  | Some y1, Some y0, Some x1, Some x0 =>
      let s := seconds (DateTime.sub x1 x0) in
      if s =? 0 then Some (inl ZeroDivisionError)
      else Some (inr ((y1 - y0) / PyFloat.of_int s * 60)%float)
  | _, _, _, _ => None
  end.

(** [Session.update_plot(x, y)]; [visible] is what [self.f.isVisible()]
    answers. *)
Definition update_plot (x : datetime) (y : float) (visible : bool) : M Z :=
  s <- get_sess ;;
  match f s with
  | None => raise AttributeError
  | Some p =>
      emit (EvIsVisible visible) ;;
      if negb visible then set_alive false ;; ret (-1)
      else
        let x_data := (lines_x p ++ [x])%list in
        set_f (mkPlotWindow x_data (lines_y p) (heating_speed p) (xlim p)) ;;
        let delta := DateTime.sub x (nth 0 x_data x) in
        let lim :=
          if (1 <? PyFloat.of_int (seconds delta) / 60 / 60)%float then
            let delta := new_delta 0 3600 0 in
            let margin := new_delta 0 180 0 in
            Some (add_timedelta (add_timedelta x delta (-1)) margin (-1),
                  add_timedelta x margin 1)
          else None in
        match lim with
        | Some (lo, hi) => emit (EvSetXlim lo hi)
        | None => ret tt
        end ;;
        let lim' := match lim with Some l => Some l | None => xlim p end in
        let y_data := (lines_y p ++ [y])%list in
        set_f (mkPlotWindow x_data y_data (heating_speed p) lim') ;;
        let i := List.length x_data in
        (if (step <? i)%nat then
           match heating_speed_of x_data y_data with
           | Some (inr hs) =>
               emit (EvHeatingText (heating_text hs)) ;;
               set_f (mkPlotWindow x_data y_data (heating_text hs) lim')
           | Some (inl e) => raise e
           | None => ret tt
           end
         else ret tt) ;;
        emit EvDraw ;;
        ret 0
  end.

(** The argument of the square root in line 112. *)
Definition radicand (resistance : float) : float :=
  (-0.00232 * resistance + 17.59246)%float.

(** The calibration of line 112. *)
Definition temperature (resistance : float) : exn + float :=
  match math_sqrt (radicand resistance) with
  | inl e => inl e
  | inr r => inr (- (r - 3.908) / 0.00116)%float
  end.

(** The first two lines written to the log file (lines 97 and 98). *)
Definition banner (ctime : string) : string :=
  "#measurement started at " ++ ctime ++ " with Keithley 2636A " ++ nl.
Definition header : string :=
  "# Time " ++ tab ++ " t ( s ) " ++ tab ++ " R ( Ohm )  " ++ tab ++ " T (C)" ++ nl.

(** The row of line 117. *)
Definition row (date : datetime) (t resistance T : float) : string :=
  strftime_HMSf date ++ tab ++ PyFloat.format_f 3 t ++ tab ++
  PyFloat.format_f 3 resistance ++ tab ++ PyFloat.format_f 3 T ++ nl.

(** What the environment supplies to one loop iteration: the reading of
    [timeit.default_timer()], the instrument's response, the reading of
    [datetime.datetime.now()], the answer of [isVisible()], and the program
    point, if any, at which the GUI thread's [finish()] takes effect. *)
Record IterEnv : Type := mkIterEnv {
  timer : float;
  response : option string;
  now : datetime;
  visible : bool;
  stop_at : option nat
}.

(** What the environment supplies to a run: the string of [time.ctime()],
    the first reading of the timer, whether the GUI thread's [finish()]
    takes effect after line 94 and before the loop is entered, and the
    iterations. *)
Record RunEnv : Type := mkRunEnv {
  ctime : string;
  start_timer : float;
  stop_before_loop : bool;
  iters : list IterEnv
}.

(** A point at which the other thread may run: [finish()] takes effect here
    when the environment says so. *)
Definition yield (e : IterEnv) (p : nat) : M unit :=
  match stop_at e with
  | Some q => if Nat.eqb p q then finish else ret tt
  | None => ret tt
  end.

(** The program points of one iteration are [0 .. last_point]. *)
Definition last_point : nat := 9.

Section Run.

(** [float(response.strip())] is Python's own; [None] is its [ValueError]
    (whose message Python completes with the text it could not convert; the
    model keeps the fixed part). *)
Variable float_strip : string -> option float.

Definition parse (response : string) : M float :=
  match float_strip response with
  | Some r => ret r
  | None => raise (ValueError "could not convert string to float")
  end.

(** The body of the [while] loop, lines 106 to 119. *)
Definition iteration (start : float) (e : IterEnv) : M unit :=
  yield e 0 ;;
  emit (EvTimer (timer e)) ;;
  let t := (timer e - start)%float in
  yield e 1 ;;
  smu_write measure_cmd ;;
  yield e 2 ;;
  response <- smu_read (response e) ;;
  yield e 3 ;;
  resistance <- parse response ;;
  yield e 4 ;;
  print ("Resistance: " ++ PyFloat.format_f 2 resistance ++ " Ohms" ++ tab) ;;
  T <- lift (temperature resistance) ;;
  yield e 5 ;;
  print (" Temperature: " ++ PyFloat.format_f 2 T ++ " deg. C" ++ nl) ;;
  emit (EvSleep 0.05) ;;
  yield e 6 ;;
  let date := now e in
  emit (EvNow date) ;;
  yield e 7 ;;
  s <- get_sess ;;
  (if truthy (file s) then emit (EvFileWrite (row date t resistance T))
   else ret tt) ;;
  yield e 8 ;;
  data_append (date, T) ;;
  yield e 9 ;;
  update_plot date T (visible e) ;;
  ret tt.

(** [while self.alive: ...] over the recorded iterations. *)
Fixpoint loop (start : float) (envs : list IterEnv) : M unit :=
  fun w =>
    if alive (sess w) then
      match envs with
      | [] => Running w
      | e :: envs' => (iteration start e ;; loop start envs') w
      end
    else Ok tt w.

(** Lines 120 to 124. *)
Definition epilogue : M unit :=
  print ("Finished" ++ nl) ;;
  s <- get_sess ;;
  (if truthy (file s) then emit EvFileClose else ret tt) ;;
  smu_write output_off_cmd ;;
  finished true status_closed.

(** Lines 94 to 104; the file, when there is one, is taken to open and to
    accept what is written to it.  A [finish()] of the GUI thread that takes
    effect while these lines run is seen by the first test of the loop. *)
Definition prologue (env : RunEnv) : M unit :=
  set_alive true ;;
  s <- get_sess ;;
  (if truthy (file s) then
     emit (EvFileOpen (file s)) ;;
     emit (EvFileWrite (banner (ctime env))) ;;
     emit (EvFileWrite header)
   else ret tt) ;;
  setup_device ;;
  smu_write output_on_cmd ;;
  emit (EvTimer (start_timer env)) ;;
  (if stop_before_loop env then finish else ret tt).

(** [Session.run]. *)
Definition run (env : RunEnv) : M unit :=
  prologue env ;;
  loop (start_timer env) (iters env) ;;
  epilogue.

End Run.

(** ** [MainWindow] *)

Record StartEnv : Type := mkStartEnv {
  file_text : string;
  overwrite : bool;
  list_resources : list string
}.

(** [str.endswith]. *)
Fixpoint rev_prefix (p s : list ascii) : bool :=
  match p, s with
  | [], _ => true
  | a :: p', b :: s' => Ascii.eqb a b && rev_prefix p' s'
  | _ :: _, [] => false
  end.
Definition endswith (s suffix : string) : bool :=
  rev_prefix (rev (list_ascii_of_string suffix)) (rev (list_ascii_of_string s)).

(** [backend.Session(file, self)]: when [__init__] raises, no reference to
    the new object is stored and [messung] keeps referring to the old one. *)
Definition new_Session (file : string) (devs : list string) : M unit :=
  fun w =>
    match Session_init file devs w with
    | Ok _ w' =>
        Ok tt (mkworld (sess w')
                 (mkMainWindow true (aus (win w')) (Button_start (win w'))
                    (Button_end (win w')) (statusBar (win w')))
                 (trace w'))
    | Raise e w' => Raise e (mkworld (sess w) (win w') (trace w'))
    | Running w' => Running w'
    end.

Definition set_aus (b : bool) : M unit :=
  m <- get_win ;;
  put_win (mkMainWindow (messung m) (Some b) (Button_start m) (Button_end m)
             (statusBar m)).

(** [MainWindow.startmiu]; [start()] hands [run] to a new thread. *)
Definition startmiu (env : StartEnv) : M unit :=
  finished false "Running..." ;;
  let file := file_text env in
  r <- (if truthy file then
          let file := if endswith file ".dat" then file else file ++ ".dat" in
          emit (EvQuestion (overwrite env)) ;;
          ret (file, overwrite env)
        else ret (file, true)) ;;
  let '(file, ok) := r in
  (if ok then
     set_aus true ;;
     new_Session file (list_resources env) ;;
     emit EvThreadStart
   else ret tt) ;;
  (if negb ok then finished true "" else ret tt).

(** Positional arguments of a call. *)
Inductive pyarg : Type := PyBool (b : bool).

(** A call of [self.messung.finish] with positional arguments [args]:
    [finish] is defined with no parameter besides [self]. *)
Definition call_finish (args : list pyarg) : M unit :=
  m <- get_win ;;
  if messung m then
    match args with
    | [] => finish
    | _ :: _ => raise TypeError
    end
  else raise AttributeError.

(** Line 125, the last statement of [stopmiu]. *)
Definition stopmiu_report : M unit := finished true status_manual.

(** [MainWindow.stopmiu]. *)
Definition stopmiu : M unit :=
  set_aus false ;;
  call_finish [PyBool false] ;;
  stopmiu_report.

(** ** Observations *)

(** Whether [finish()] takes effect at point [p] of the iteration. *)
Definition hit (e : IterEnv) (p : nat) : bool :=
  match stop_at e with
  | Some q => Nat.eqb p q
  | None => false
  end.

(** Whether [finish()] takes effect during the iteration at all. *)
Definition stopped (e : IterEnv) : bool :=
  match stop_at e with
  | Some q => (q <=? last_point)%nat
  | None => false
  end.

(** The events a call added to the trace. *)
Definition events_since (w w' : world) : list event :=
  skipn (List.length (trace w)) (trace w').

Definition is_output_off (ev : event) : bool :=
  match ev with EvSmuWrite c => String.eqb c output_off_cmd | _ => false end.
Definition is_output_on (ev : event) : bool :=
  match ev with EvSmuWrite c => String.eqb c output_on_cmd | _ => false end.
Definition is_smu_write (ev : event) : bool :=
  match ev with EvSmuWrite _ => true | _ => false end.
Definition is_finished (ev : event) : bool :=
  match ev with EvFinished _ _ => true | _ => false end.
Definition is_file_close (ev : event) : bool :=
  match ev with EvFileClose => true | _ => false end.
Definition is_thread_start (ev : event) : bool :=
  match ev with EvThreadStart => true | _ => false end.
Definition is_sleep (ev : event) : bool :=
  match ev with EvSleep _ => true | _ => false end.

(** The events of an iteration that precede the sleep. *)
Definition is_early (ev : event) : bool :=
  match ev with
  | EvTimer _ | EvSmuRead _ | EvPrint _ => true
  | EvSmuWrite c => String.eqb c measure_cmd
  | _ => false
  end.

(** The events of [update_plot] after the visibility test. *)
Definition is_plot_event (ev : event) : bool :=
  match ev with
  | EvSetXlim _ _ | EvHeatingText _ | EvDraw => true
  | _ => false
  end.

(** What was written to the log file, write by write. *)
Definition file_writes (evs : list event) : list string :=
  flat_map (fun ev => match ev with EvFileWrite s => [s] | _ => [] end) evs.

(** The events of one iteration up to the timestamp, in program order. *)
Definition head_events (e : IterEnv) (resp : string) (r T : float) : list event :=
  [ EvTimer (timer e);
    EvSmuWrite measure_cmd;
    EvSmuRead resp;
    EvPrint ("Resistance: " ++ PyFloat.format_f 2 r ++ " Ohms" ++ tab);
    EvPrint (" Temperature: " ++ PyFloat.format_f 2 T ++ " deg. C" ++ nl);
    EvSleep 0.05;
    EvNow (now e) ].

Definition file_events (file : string) (line : string) : list event :=
  if truthy file then [EvFileWrite line] else [].

(** Every event an iteration of the loop can add. *)
Definition is_loop_event (ev : event) : bool :=
  match ev with
  | EvSleep _ | EvNow _ | EvFileWrite _ | EvIsVisible _ => true
  | _ => is_early ev || is_plot_event ev
  end.

(** The events of [prologue], [setup_device] and [epilogue] when nothing
    raises. *)
Definition open_events (file : string) (ctime : string) : list event :=
  if truthy file
  then [EvFileOpen file; EvFileWrite (banner ctime); EvFileWrite header]
  else [].

Definition setup_events : list event :=
  map EvSmuWrite
    [ "*RST"; "smua.reset()"; "smua.source.func = smua.OUTPUT_DCAMPS";
      "smua.source.leveli = 1e-3"; "smua.measure.autorangev = smua.AUTORANGE_ON";
      "smua.measure.nplc = 5"; "smua.measure.delay = 0.1"; "smua.measure.rangev = 20";
      "smua.measure.rangei = 1e-3"; "smua.measure.r(smua.nvbuffer1)" ].

Definition prologue_events (env : RunEnv) (file : string) : list event :=
  (open_events file (ctime env) ++ setup_events
     ++ [EvSmuWrite output_on_cmd; EvTimer (start_timer env)])%list.

Definition close_events (file : string) : list event :=
  if truthy file then [EvFileClose] else [].

Definition epilogue_events (file : string) : list event :=
  (EvPrint ("Finished" ++ nl) :: close_events file
     ++ [EvSmuWrite output_off_cmd; EvFinished true status_closed])%list.

(** One line of measurements: timestamp, elapsed time, resistance and
    temperature. *)
Record Reading : Type := mkReading {
  r_date : datetime;
  r_t : float;
  r_resistance : float;
  r_T : float
}.

Definition row_of (r : Reading) : string :=
  row (r_date r) (r_t r) (r_resistance r) (r_T r).
Definition sample_of (r : Reading) : datetime * float := (r_date r, r_T r).

Section Readings.
Variable float_strip : string -> option float.

(** The measurements an iteration takes when nothing in it raises before the
    sleep. *)
Definition reading (start : float) (e : IterEnv) : option Reading :=
  match response e with
  | Some resp =>
      match float_strip resp with
      | Some r =>
          match temperature r with
          | inr T => Some (mkReading (now e) (timer e - start) r T)
          | inl _ => None
          end
      | None => None
      end
  | None => None
  end.

(** The measurements of successive iterations, up to the first that fails. *)
Fixpoint readings (start : float) (envs : list IterEnv) : list Reading :=
  match envs with
  | [] => []
  | e :: envs' =>
      match reading start e with
      | Some r => r :: readings start envs'
      | None => []
      end
  end.

End Readings.


(** Position of the first event that satisfies [p]. *)
Fixpoint index_of (p : event -> bool) (evs : list event) : option nat :=
  match evs with
  | [] => None
  | ev :: evs' => if p ev then Some O else option_map S (index_of p evs')
  end.

Definition is_now (ev : event) : bool :=
  match ev with EvNow _ => true | _ => false end.
Definition is_file_write (ev : event) : bool :=
  match ev with EvFileWrite _ => true | _ => false end.
Definition is_forward (ev : event) : bool :=
  match ev with EvIsVisible _ => true | _ => false end.

(** [p] occurs, and before the first [q]. *)
Definition occurs_before (p q : event -> bool) (evs : list event) : bool :=
  match index_of p evs, index_of q evs with
  | Some i, Some j => (i <? j)%nat
  | _, _ => false
  end.

Definition is_heating_text (ev : event) : bool :=
  match ev with EvHeatingText _ => true | _ => false end.

(** The order of steps 3 to 6 as the specification lists them: the timestamp,
    the file row and the forwarding to the plot all come before the sleep. *)
Definition spec_step_order (evs : list event) : Prop :=
  occurs_before is_now is_sleep evs = true /\
  occurs_before is_file_write is_sleep evs = true /\
  occurs_before is_forward is_sleep evs = true.

(** The rate as the specification words it, over elapsed times. *)
Definition spec_heating_speed (T elapsed : list float) (i : nat) : float :=
  ((nth i T 0 - nth (i - step) T 0)
   / (nth i elapsed 0 - nth (i - step) elapsed 0) * 60)%float.

(** ** Concrete sessions *)

Module Examples.

Fixpoint digits_value (acc : Z) (s : string) : option Z :=
  match s with
  | EmptyString => Some acc
  | String c s' =>
      let n := Z.of_nat (nat_of_ascii c) in
      if (48 <=? n) && (n <=? 57) then digits_value (acc * 10 + (n - 48)) s' else None
  end.

(** [float(response.strip())] on the responses used below: a string of
    decimal digits is the integer it spells, anything else is rejected. *)
Definition read_decimal (s : string) : option float :=
  match s with
  | EmptyString => None
  | _ => option_map PyFloat.of_int (digits_value 0 s)
  end.

(** The main window before any run, and after [Start] was pressed with the
    file name [log] and one instrument on the bus. *)
Definition idle : world :=
  mkworld (mkSession "" None [] true None) (mkMainWindow false None true true "") [].
Definition started : world :=
  final (startmiu (mkStartEnv "log" true ["GPIB0::26::INSTR"]) idle).

Definition noon (s us : Z) : datetime := mkdatetime 739923 12 0 s us.

(** Three samples, R = 5000, 5010, 5020 at 0 s, 1 s, 2 s; the plot window is
    found closed after the third. *)
Definition three_samples : RunEnv :=
  mkRunEnv "Tue Nov  3 12:00:00 2026" 100 false
    [ mkIterEnv 100 (Some "5000") (noon 0 100000) true None;
      mkIterEnv 101 (Some "5010") (noon 1 100000) true None;
      mkIterEnv 102 (Some "5020") (noon 2 100000) false None ].

(** The second response is not a number. *)
Definition bad_reading : RunEnv :=
  mkRunEnv "Tue Nov  3 12:00:00 2026" 100 false
    [ mkIterEnv 100 (Some "5000") (noon 0 100000) true None;
      mkIterEnv 101 (Some "ERROR") (noon 1 100000) true None ].

(** The second resistance is outside the calibration's domain. *)
Definition out_of_range : RunEnv :=
  mkRunEnv "Tue Nov  3 12:00:00 2026" 100 false
    [ mkIterEnv 100 (Some "5000") (noon 0 100000) true None;
      mkIterEnv 101 (Some "8000") (noon 1 100000) true None ].


(** Samples every 110 ms with the resistance rising by one ohm each. *)
Definition ramp_iter (i : nat) : IterEnv :=
  let k := Z.of_nat i in
  mkIterEnv (100 + 0.11 * PyFloat.of_int k)%float
            (Some (decimal (5000 + k)))
            (noon ((60000 + 110000 * k) / 1000000) ((60000 + 110000 * k) mod 1000000))
            true None.
Definition ramp (n : nat) : RunEnv :=
  mkRunEnv "Tue Nov  3 12:00:00 2026" 100 false (map ramp_iter (seq 0 n)).

(** One iteration, with [finish()] arriving after the response was read. *)
Definition stop_iter : IterEnv :=
  mkIterEnv 101 (Some "5010") (noon 1 100000) true (Some 3%nat).

(** An iteration in which nothing goes wrong. *)
Definition plain_iter : IterEnv :=
  mkIterEnv 100 (Some "5000") (noon 0 100000) true None.

(** The temperature of a resistance inside the calibration's domain. *)
Definition celsius (resistance : float) : float :=
  match temperature resistance with inr T => T | inl _ => nan end.

(** The world a run leaves behind. *)
Definition after (env : RunEnv) : world := final (run read_decimal env started).

(** The plot window of a session and the text of its label. *)
Definition plot_of (w : world) : PlotWindow :=
  match f (sess w) with Some p => p | None => PlotWindow_init end.
Definition displayed (w : world) : string := heating_speed (plot_of w).

(** The elapsed times and the temperatures of a run, sample by sample. *)
Definition elapsed_of (env : RunEnv) : list float :=
  map (fun e => (timer e - start_timer env)%float) (iters env).
Definition temperatures_of (w : world) : list float := map snd (data (sess w)).

End Examples.

(** ** Postconditions

    The shapes the results of [update_plot], of one iteration, of the loop
    and of a whole run can take; the facts below show that the code always
    produces one of them. *)


(** What a call of [update_plot] leaves behind. *)
Record plot_post (v : bool) (w : world) (o : outcome Z) (pevs : list event) : Prop := {
  pp_file : file (sess (final o)) = file (sess w);
  pp_data : data (sess (final o)) = data (sess w);
  pp_smu : smu (sess (final o)) = smu (sess w);
  pp_win : win (final o) = win w;
  pp_alive : alive (sess (final o)) = alive (sess w) && v;
  pp_trace : trace (final o) = (trace w ++ EvIsVisible v :: pevs)%list;
  pp_events : forallb is_plot_event pevs = true;
  pp_closed : v = false -> pevs = [];
  pp_outcome : match o with
               | Ok z _ => z = if v then 0 else -1
               | Raise x _ => x = ZeroDivisionError /\ v = true
               | Running _ => False
               end
}.

(** What [update_plot] contributes to the end of an iteration. *)
Definition plot_tail (e : IterEnv) (w : world) (o : outcome unit) (tl : list event) : Prop :=
  match f (sess w) with
  | None => tl = [] /\ exists w', o = Raise AttributeError w'
  | Some _ =>
      exists pevs,
        tl = EvIsVisible (visible e) :: pevs /\
        forallb is_plot_event pevs = true /\
        (visible e = false -> pevs = []) /\
        match o with
        | Ok _ w' => alive (sess w') = alive (sess w) && negb (stopped e) && visible e
        | Raise x _ => x = ZeroDivisionError /\ visible e = true
        | Running _ => False
        end
  end.

Section Posts.
Variable float_strip : string -> option float.

(** The two ways an iteration can go: it raises before the sleep, with the
    sample not recorded, or it gets to the sleep and then records the sample
    and calls [update_plot]. *)
Inductive iter_post (start : float) (e : IterEnv) (w : world) : outcome unit -> Prop :=
| iter_early x w' evs :
    file (sess w') = file (sess w) ->
    smu (sess w') = smu (sess w) ->
    win w' = win w ->
    data (sess w') = data (sess w) ->
    trace w' = (trace w ++ evs)%list ->
    forallb is_early evs = true ->
    iter_post start e w (Raise x w')
| iter_late o resp r T tl :
    smu (sess w) <> None ->
    response e = Some resp ->
    float_strip resp = Some r ->
    temperature r = inr T ->
    file (sess (final o)) = file (sess w) ->
    smu (sess (final o)) = smu (sess w) ->
    win (final o) = win w ->
    data (sess (final o)) = (data (sess w) ++ [(now e, T)])%list ->
    trace (final o) =
      (trace w ++ head_events e resp r T
         ++ file_events (file (sess w)) (row (now e) (timer e - start) r T) ++ tl)%list ->
    plot_tail e w o tl ->
    iter_post start e w o.

(** The [while] loop as a sequence of iterations; the last index is the list
    of events the loop added. *)
Inductive loop_post (start : float) :
  list IterEnv -> world -> outcome unit -> list event -> Prop :=
| loop_exit envs w :
    alive (sess w) = false ->
    loop_post start envs w (Ok tt w) []
| loop_pending w :
    alive (sess w) = true ->
    loop_post start [] w (Running w) []
| loop_raise e envs w x w' evs :
    alive (sess w) = true ->
    iter_post start e w (Raise x w') ->
    trace w' = (trace w ++ evs)%list ->
    loop_post start (e :: envs) w (Raise x w') evs
| loop_step e envs w w1 o evs1 evs2 :
    alive (sess w) = true ->
    iter_post start e w (Ok tt w1) ->
    trace w1 = (trace w ++ evs1)%list ->
    loop_post start envs w1 o evs2 ->
    loop_post start (e :: envs) w o (evs1 ++ evs2).

(** A run either stops in [setup_device], for want of an instrument handle,
    or goes through the loop and, when the loop ends, the epilogue. *)
Inductive run_post (env : RunEnv) (w : world) : outcome unit -> list event -> Prop :=
| run_no_smu w' :
    smu (sess w) = None ->
    data (sess w') = data (sess w) ->
    trace w' = (trace w ++ open_events (file (sess w)) (ctime env))%list ->
    run_post env w (Raise AttributeError w') (open_events (file (sess w)) (ctime env))
| run_returns w1 w2 w3 evs :
    smu (sess w) <> None ->
    data (sess w1) = data (sess w) ->
    file (sess w1) = file (sess w) ->
    loop_post (start_timer env) (iters env) w1 (Ok tt w2) evs ->
    sess w3 = sess w2 ->
    win w3 = mkMainWindow (messung (win w)) (aus (win w)) true true status_closed ->
    run_post env w (Ok tt w3)
      (prologue_events env (file (sess w)) ++ evs ++ epilogue_events (file (sess w)))
| run_stops w1 o evs :
    smu (sess w) <> None ->
    data (sess w1) = data (sess w) ->
    file (sess w1) = file (sess w) ->
    loop_post (start_timer env) (iters env) w1 o evs ->
    (forall w2, o <> Ok tt w2) ->
    run_post env w o (prologue_events env (file (sess w)) ++ evs).

End Posts.

(** Unfolding of the monad's primitives and of the record projections. *)
Ltac run_prims :=
  cbv beta iota delta
    [bind ret raise emit get_sess put_sess get_win put_win lift set_alive set_f
     set_smu data_append print smu_write smu_read finished finish final
     sess win trace file f data alive smu messung aus Button_start Button_end statusBar].

(** An iteration that raised before the sleep. *)
Ltac early :=
  eapply iter_early; cbn [sess win trace file data smu];
  [ reflexivity | reflexivity | reflexivity | reflexivity
  | rewrite <- ?app_assoc; cbn [app]; reflexivity | reflexivity ].

(** ** Further observations *)

(** A [timedelta] as a number of microseconds. *)
Definition td_us (td : timedelta) : Z :=
  (days td * 86400 + seconds td) * 1000000 + microseconds td.

(** The file-name rule of [startmiu] and [Filedlg]: the suffix [.dat] is
    added unless it is already there. *)
Definition with_dat (file : string) : string :=
  if endswith file ".dat" then file else file ++ ".dat".

(** [MainWindow.Filedlg]: the text of the file field after the dialog
    returned [chosen] (empty when the dialog was cancelled). *)
Definition Filedlg (chosen text : string) : string :=
  if truthy chosen then with_dat chosen else text.

(** The commands written to the instrument, in order. *)
Definition smu_writes (evs : list event) : list string :=
  flat_map (fun ev => match ev with EvSmuWrite c => [c] | _ => [] end) evs.

(** The commands of [setup_device] and of [reset_device]. *)
Definition setup_cmds : list string :=
  [ "*RST"; "smua.reset()"; "smua.source.func = smua.OUTPUT_DCAMPS";
    "smua.source.leveli = 1e-3"; "smua.measure.autorangev = smua.AUTORANGE_ON";
    "smua.measure.nplc = 5"; "smua.measure.delay = 0.1"; "smua.measure.rangev = 20";
    "smua.measure.rangei = 1e-3"; "smua.measure.r(smua.nvbuffer1)" ].
Definition reset_cmds : list string :=
  [ "smua.reset()"; "smua.source.func = smua.OUTPUT_DCVOLTS";
    "smua.source.levelv = 0.0"; "smua.source.autorangev = smua.AUTORANGE_ON";
    "smua.measure.autorangei = smua.AUTORANGE_ON"; output_off_cmd ].

Definition is_file_event (ev : event) : bool :=
  match ev with
  | EvFileOpen _ | EvFileWrite _ | EvFileClose => true
  | _ => false
  end.

(** Number of occurrences of a character. *)
Fixpoint count_char (c : ascii) (s : string) : nat :=
  match s with
  | EmptyString => O
  | String a s' => ((if Ascii.eqb a c then 1 else 0) + count_char c s')%nat
  end.

(** The points on the plot of the session. *)
Definition plotted (w : world) : list datetime * list float :=
  match f (sess w) with
  | Some p => (lines_x p, lines_y p)
  | None => ([], [])
  end.

(** The samples of the session, as two columns. *)
Definition recorded (w : world) : list datetime * list float :=
  (map fst (data (sess w)), map snd (data (sess w))).

(** The test of line 48 on a number of seconds. *)
Definition over_an_hour (s : Z) : bool :=
  (1 <? PyFloat.of_int s / 60 / 60)%float.

(** [p] holds on the [n] integers from [lo] on. *)
Fixpoint forall_range (p : Z -> bool) (lo : Z) (n : nat) : bool :=
  match n with
  | O => true
  | S n' => p lo && forall_range p (lo + 1) n'
  end.

(** ** Further concrete sessions *)

Module MoreExamples.
Import Examples.

(** A run whose first iteration is overtaken by [finish()]. *)
Definition stopped_run : RunEnv :=
  mkRunEnv "Tue Nov  3 12:00:00 2026" 100 false [stop_iter; plain_iter].

(** An iteration in which [finish()] arrives after the response was read and
    the response is not a number, and a run whose second iteration it is. *)
Definition stop_then_error : IterEnv :=
  mkIterEnv 101 (Some "ERROR") (noon 1 100000) true (Some 3%nat).
Definition stopped_failing_run : RunEnv :=
  mkRunEnv "Tue Nov  3 12:00:00 2026" 100 false [plain_iter; stop_then_error].

(** A run in which [finish()] takes effect before the loop is entered. *)
Definition stopped_at_once : RunEnv :=
  mkRunEnv "Tue Nov  3 12:00:00 2026" 100 true [plain_iter].

(** The session [startmiu] creates when the file field is left empty: no log
    file is written. *)
Definition started_no_file : world :=
  final (startmiu (mkStartEnv "" true ["GPIB0::26::INSTR"]) idle).

(** A run whose first read fails. *)
Definition failed_read : IterEnv :=
  mkIterEnv 100 None (noon 0 100000) true None.

(** A little more than an hour after noon. *)
Definition one_o_clock : datetime := mkdatetime 739923 13 0 2 0.

End MoreExamples.

(** * Facts

    ** Binary64 square roots *)
























(** ** The monad and the session's methods *)

Lemma events_since_app (w w' : world) (evs : list event) :
  trace w' = (trace w ++ evs)%list -> events_since w w' = evs.
Proof.
  intros H. unfold events_since. rewrite H.
  rewrite skipn_app, skipn_all, Nat.sub_diag. reflexivity.
Qed.

Lemma yield_mk (e : IterEnv) (p : nat) fl pf dt al sm wn tr :
  yield e p (mkworld (mkSession fl pf dt al sm) wn tr) =
  Ok tt (mkworld (mkSession fl pf dt (al && negb (hit e p)) sm) wn tr).
Proof.
  unfold yield, hit. destruct (stop_at e) as [q|].
  - destruct (Nat.eqb p q); destruct al; reflexivity.
  - destruct al; reflexivity.
Qed.

Lemma stopped_hits (e : IterEnv) (al : bool) :
  al && negb (hit e 0) && negb (hit e 1) && negb (hit e 2) && negb (hit e 3)
     && negb (hit e 4) && negb (hit e 5) && negb (hit e 6) && negb (hit e 7)
     && negb (hit e 8) && negb (hit e 9) = al && negb (stopped e).
Proof.
  unfold hit, stopped, last_point. destruct (stop_at e) as [q|].
  - do 10 (destruct q as [|q]; [destruct al; reflexivity|]). destruct al; reflexivity.
  - destruct al; reflexivity.
Qed.



Lemma heating_speed_of_raise (xs : list datetime) (ys : list float) (ex : exn) :
  heating_speed_of xs ys = Some (inl ex) -> ex = ZeroDivisionError.
Proof.
  unfold heating_speed_of.
  repeat match goal with
         | |- context [match nth_error ?l ?n with _ => _ end] => destruct (nth_error l n)
         end; try discriminate.
  destruct (_ =? 0); congruence.
Qed.

Lemma update_plot_post (x : datetime) (y : float) (v : bool) (w : world) (p : PlotWindow) :
  f (sess w) = Some p ->
  exists pevs, plot_post v w (update_plot x y v w) pevs.
Proof.
  destruct w as [[fl pf dt al sm] wn tr]. cbn [sess f]. intros ->.
  unfold update_plot. run_prims.
  destruct v; cbn [negb]; run_prims.
  2:{ exists []. constructor; cbn [final sess win trace file data smu alive]; auto using andb_false_r. }
  set (x_data := (lines_x p ++ [x])%list).
  set (y_data := (lines_y p ++ [y])%list).
  destruct ((1 <? PyFloat.of_int (seconds (DateTime.sub x (nth 0 x_data x))) / 60 / 60)%float);
    run_prims;
    (destruct (step <? List.length x_data)%nat; run_prims;
     [ destruct (heating_speed_of x_data y_data) as [[ex|hs]|] eqn:Ehs; run_prims | ]);
    eexists; (constructor; cbn [final sess win trace file data smu alive];
      [ reflexivity | reflexivity | reflexivity | reflexivity | symmetry; apply andb_true_r
      | rewrite <- ?app_assoc; cbn [app]; reflexivity | reflexivity | discriminate | ]).
  all: try reflexivity.
  all: split; [eapply heating_speed_of_raise; eassumption | reflexivity].
Qed.

Section RunFacts.
Variable float_strip : string -> option float.




Lemma iteration_post (start : float) (e : IterEnv) (w : world) :
  iter_post float_strip start e w (iteration float_strip start e w).
Proof.
  destruct w as [[fl pf dt al sm] wn tr].
  unfold iteration, parse.
  cbv beta delta [bind]. rewrite yield_mk. run_prims.
  rewrite yield_mk. run_prims.
  destruct sm as [d|]; [|early].
  run_prims. rewrite yield_mk. run_prims.
  destruct (response e) as [resp|] eqn:Eresp; [|early].
  run_prims. rewrite yield_mk. run_prims.
  destruct (float_strip resp) as [r|] eqn:Er; run_prims; [|early].
  rewrite yield_mk. run_prims.
  destruct (temperature r) as [ex|T] eqn:ET; run_prims; [early|].
  rewrite yield_mk. run_prims. rewrite yield_mk. run_prims. rewrite yield_mk.
  run_prims.
  destruct (truthy fl) eqn:Efl; run_prims; rewrite yield_mk; run_prims;
    rewrite yield_mk; run_prims.
  all: rewrite stopped_hits.
  all: destruct pf as [p|];
    [ match goal with
      | |- context [update_plot ?x ?y ?v ?w] =>
          destruct (update_plot_post x y v w p eq_refl) as [pevs Hp];
          destruct Hp as [Hfile Hdata Hsmu Hwin Halive Htrace Hevs Hclosed Hout];
          destruct (update_plot x y v w) as [z w'|x' w'|w'];
          cbn [final sess win trace file data smu alive f] in *
      end
    | unfold update_plot; run_prims ].
  all: try contradiction.
  all: eapply iter_late with (resp := resp) (r := r) (T := T);
    cbn [final sess win trace file data smu alive f]; try eassumption; try reflexivity;
    try discriminate.
  all: unfold file_events; cbn [sess file]; rewrite ?Efl.
  all: try (rewrite Htrace, <- ?app_assoc; cbn [app]; reflexivity).
  all: try (rewrite <- ?app_assoc; cbn [app]; rewrite ?app_nil_r; reflexivity).
  all: unfold plot_tail; cbn [sess f alive].
  all: try (exists pevs; repeat split; auto; tauto).
  all: try (split; [reflexivity | eexists; reflexivity]).
Qed.

Lemma forallb_impl {A} (p q : A -> bool) (l : list A) :
  (forall a, p a = true -> q a = true) -> forallb p l = true -> forallb q l = true.
Proof.
  intros Hpq. rewrite !forallb_forall. auto.
Qed.

Lemma early_loop_event (ev : event) : is_early ev = true -> is_loop_event ev = true.
Proof. unfold is_loop_event. intros ->. destruct ev; reflexivity. Qed.

Lemma plot_loop_event (ev : event) : is_plot_event ev = true -> is_loop_event ev = true.
Proof. unfold is_loop_event. intros ->. rewrite orb_true_r. destruct ev; reflexivity. Qed.

Lemma iter_post_trace (start : float) (e : IterEnv) (w : world) (o : outcome unit) :
  iter_post float_strip start e w o ->
  exists evs, trace (final o) = (trace w ++ evs)%list /\ forallb is_loop_event evs = true.
Proof.
  intros [x w' evs _ _ _ _ Ht He | o' resp r T tl _ _ _ _ _ _ _ _ Ht Hp].
  - exists evs. split; [assumption|].
    revert He. apply forallb_impl, early_loop_event.
  - eexists. split; [eassumption|].
    rewrite !forallb_app. apply andb_true_intro. split; [reflexivity|].
    apply andb_true_intro. split.
    + unfold file_events. destruct (truthy _); reflexivity.
    + unfold plot_tail in Hp. destruct (f (sess w)).
      * destruct Hp as (pevs & -> & Hpe & _). cbn [forallb].
        apply andb_true_intro. split; [reflexivity|].
        revert Hpe. apply forallb_impl, plot_loop_event.
      * destruct Hp as [-> _]. reflexivity.
Qed.


Lemma iter_post_not_running (start : float) (e : IterEnv) (w w' : world) :
  ~ iter_post float_strip start e w (Running w').
Proof.
  intros H. inversion H; subst.
  match goal with Hp : plot_tail _ _ _ _ |- _ => unfold plot_tail in Hp; rename Hp into Hp' end.
  destruct (f (sess w)).
  - destruct Hp' as (pevs & _ & _ & _ & []).
  - destruct Hp' as [_ [w'' Hw]]. discriminate.
Qed.

Lemma loop_sound (start : float) (envs : list IterEnv) : forall w,
  exists evs, loop_post float_strip start envs w (loop float_strip start envs w) evs.
Proof.
  induction envs as [|e envs IH]; intros w; cbn [loop].
  - destruct (alive (sess w)) eqn:Ea; eexists; constructor; assumption.
  - destruct (alive (sess w)) eqn:Ea; [|eexists; constructor; assumption].
    unfold bind.
    pose proof (iteration_post start e w) as Hi.
    destruct (iteration float_strip start e w) as [[] w1 | x w1 | w1].
    + destruct (iter_post_trace _ _ _ _ Hi) as (evs1 & Ht & _).
      destruct (IH w1) as [evs2 H2].
      exists (evs1 ++ evs2)%list. eapply loop_step; eassumption.
    + destruct (iter_post_trace _ _ _ _ Hi) as (evs1 & Ht & _).
      exists evs1. eapply loop_raise; eassumption.
    + exfalso. eapply iter_post_not_running; eassumption.
Qed.

Lemma loop_post_trace start envs w o evs :
  loop_post float_strip start envs w o evs -> trace (final o) = (trace w ++ evs)%list.
Proof.
  induction 1 as [envs w _ | w _ | e envs w x w' evs _ _ Ht
                 | e envs w w1 o evs1 evs2 _ _ Ht _ IH]; cbn [final] in *.
  - symmetry; apply app_nil_r.
  - symmetry; apply app_nil_r.
  - assumption.
  - rewrite IH, Ht, app_assoc. reflexivity.
Qed.

(** The session's file name, instrument handle and the main window are left
    alone by the loop; every event it adds is an iteration's. *)
Lemma loop_post_frame start envs w o evs :
  loop_post float_strip start envs w o evs ->
  file (sess (final o)) = file (sess w) /\
  smu (sess (final o)) = smu (sess w) /\
  win (final o) = win w /\
  forallb is_loop_event evs = true.
Proof.
  induction 1 as [envs w _ | w _ | e envs w x w' evs _ Hi Ht
                 | e envs w w1 o evs1 evs2 _ Hi Ht _ IH]; cbn [final] in *.
  - auto.
  - auto.
  - destruct (iter_post_trace _ _ _ _ Hi) as (evs' & Ht' & He). cbn [final] in Ht'.
    rewrite Ht in Ht'. apply app_inv_head in Ht'. subst evs'.
    inversion Hi; subst; cbn [final] in *; auto.
  - destruct (iter_post_trace _ _ _ _ Hi) as (evs' & Ht' & He). cbn [final] in Ht'.
    rewrite Ht in Ht'. apply app_inv_head in Ht'. subst evs'.
    destruct IH as (IH1 & IH2 & IH3 & IH4).
    rewrite forallb_app, He, IH4.
    inversion Hi; subst; cbn [final] in *. repeat split; congruence.
Qed.

Lemma prologue_some (env : RunEnv) fl pf dt al d wn tr :
  prologue env (mkworld (mkSession fl pf dt al (Some d)) wn tr) =
  Ok tt (mkworld (mkSession fl pf dt (negb (stop_before_loop env)) (Some d)) wn
           (tr ++ prologue_events env fl)).
Proof.
  unfold prologue, setup_device, prologue_events, open_events, setup_events.
  run_prims.
  destruct (truthy fl); run_prims; destruct (stop_before_loop env); run_prims;
    rewrite <- ?app_assoc; reflexivity.
Qed.

Lemma prologue_none (env : RunEnv) fl pf dt al wn tr :
  prologue env (mkworld (mkSession fl pf dt al None) wn tr) =
  Raise AttributeError (mkworld (mkSession fl pf dt true None) wn
                          (tr ++ open_events fl (ctime env))).
Proof.
  unfold prologue, setup_device, open_events.
  run_prims. destruct (truthy fl); run_prims; rewrite <- ?app_assoc, ?app_nil_r; reflexivity.
Qed.

Lemma epilogue_some fl pf dt al d wn tr :
  epilogue (mkworld (mkSession fl pf dt al (Some d)) wn tr) =
  Ok tt (mkworld (mkSession fl pf dt al (Some d))
           (mkMainWindow (messung wn) (aus wn) true true status_closed)
           (tr ++ epilogue_events fl)).
Proof.
  unfold epilogue, epilogue_events, close_events.
  run_prims. destruct (truthy fl); run_prims; rewrite <- ?app_assoc; reflexivity.
Qed.

Lemma epilogue_none fl pf dt al wn tr :
  epilogue (mkworld (mkSession fl pf dt al None) wn tr) =
  Raise AttributeError (mkworld (mkSession fl pf dt al None) wn
                          (tr ++ EvPrint ("Finished" ++ nl) :: close_events fl)).
Proof.
  unfold epilogue, close_events.
  run_prims. destruct (truthy fl); run_prims; rewrite <- ?app_assoc; reflexivity.
Qed.


Lemma run_unfold (env : RunEnv) (w : world) :
  run float_strip env w =
  match prologue env w with
  | Ok _ w1 =>
      match loop float_strip (start_timer env) (iters env) w1 with
      | Ok _ w2 => epilogue w2
      | Raise x w2 => Raise x w2
      | Running w2 => Running w2
      end
  | Raise x w1 => Raise x w1
  | Running w1 => Running w1
  end.
Proof. reflexivity. Qed.


Lemma run_sound (env : RunEnv) (w : world) :
  exists evs,
    run_post float_strip env w (run float_strip env w) evs /\
    trace (final (run float_strip env w)) = (trace w ++ evs)%list.
Proof.
  rewrite run_unfold.
  destruct w as [[fl pf dt al [d|]] wn tr].
  - rewrite prologue_some.
    match goal with |- context [loop _ _ _ ?w1] => set (w1' := w1) end.
    destruct (loop_sound (start_timer env) (iters env) w1') as [evs Hl].
    pose proof (loop_post_trace _ _ _ _ _ Hl) as Ht.
    pose proof (loop_post_frame _ _ _ _ _ Hl) as (Hf & Hs & Hw & _).
    destruct (loop float_strip (start_timer env) (iters env) w1') as [[] w2 | x w2 | w2];
      cbn [final] in *; unfold w1' in Hf, Hs, Hw; cbn [sess win file smu] in Hf, Hs, Hw.
    + destruct w2 as [[fl2 pf2 dt2 al2 sm2] wn2 tr2].
      cbn [sess win trace file smu] in *. subst fl2 sm2 wn2.
      rewrite epilogue_some. eexists. split.
      * eapply run_returns with (w1 := w1'); cbn [sess win trace file smu data];
          try reflexivity; try discriminate; [exact Hl | reflexivity].
      * cbn [final trace]. rewrite Ht. unfold w1'. cbn [trace].
        rewrite <- !app_assoc. reflexivity.
    + eexists. split.
      * eapply run_stops with (w1 := w1'); cbn [sess win trace file smu data];
          try reflexivity; try discriminate. exact Hl.
      * rewrite Ht. unfold w1'. cbn [trace]. rewrite <- !app_assoc. reflexivity.
    + eexists. split.
      * eapply run_stops with (w1 := w1'); cbn [sess win trace file smu data];
          try reflexivity; try discriminate. exact Hl.
      * rewrite Ht. unfold w1'. cbn [trace]. rewrite <- !app_assoc. reflexivity.
  - rewrite prologue_none. eexists. split.
    + apply run_no_smu; reflexivity.
    + reflexivity.
Qed.

(** *** Traces *)

Lemma file_writes_app (a b : list event) :
  file_writes (a ++ b) = (file_writes a ++ file_writes b)%list.
Proof. apply flat_map_app. Qed.

Lemma file_writes_none (p : event -> bool) (evs : list event) :
  (forall ev, p ev = true -> is_file_write ev = false) ->
  forallb p evs = true -> file_writes evs = [].
Proof.
  intros Hp. induction evs as [|ev evs IH]; cbn [forallb file_writes flat_map]; [reflexivity|].
  intros H. apply andb_prop in H. destruct H as [H1 H2].
  specialize (Hp ev H1). destruct ev; try discriminate; cbn [app]; apply IH; assumption.
Qed.

Lemma existsb_none {A} (p q : A -> bool) (l : list A) :
  (forall a, p a = true -> q a = false) ->
  forallb p l = true -> existsb q l = false.
Proof.
  intros Hpq. induction l as [|a l IH]; cbn [forallb existsb]; [reflexivity|].
  intros H. apply andb_prop in H. destruct H as [H1 H2].
  rewrite (Hpq a H1), IH by assumption. reflexivity.
Qed.

Lemma early_cmd (c : string) (P : string -> bool) :
  P measure_cmd = false -> String.eqb c measure_cmd = true -> P c = false.
Proof. intros HP Hc. apply String.eqb_eq in Hc. subst c. exact HP. Qed.

Lemma loop_event_not_off (ev : event) : is_loop_event ev = true -> is_output_off ev = false.
Proof.
  destruct ev; try reflexivity; cbn. rewrite orb_false_r.
  apply (early_cmd _ (fun c => String.eqb c output_off_cmd)). reflexivity.
Qed.

Lemma loop_event_not_finished (ev : event) : is_loop_event ev = true -> is_finished ev = false.
Proof. destruct ev; try reflexivity; discriminate. Qed.

Lemma loop_event_not_close (ev : event) : is_loop_event ev = true -> is_file_close ev = false.
Proof. destruct ev; try reflexivity; discriminate. Qed.

Lemma early_not_file_write (ev : event) : is_early ev = true -> is_file_write ev = false.
Proof. destruct ev; try reflexivity; discriminate. Qed.

Lemma plot_not_file_write (ev : event) : is_plot_event ev = true -> is_file_write ev = false.
Proof. destruct ev; try reflexivity; discriminate. Qed.




(** *** Iterations and the samples they record *)

Lemma file_writes_tail (e : IterEnv) (w : world) (o : outcome unit) (tl : list event) :
  plot_tail e w o tl -> file_writes tl = [].
Proof.
  unfold plot_tail. destruct (f (sess w)).
  - intros (pevs & -> & Hp & _). cbn [file_writes flat_map app].
    revert Hp. apply file_writes_none, plot_not_file_write.
  - intros [-> _]. reflexivity.
Qed.

Lemma iter_events (start : float) (e : IterEnv) (w : world) (o : outcome unit)
  (evs : list event) :
  iter_post float_strip start e w o ->
  trace (final o) = (trace w ++ evs)%list ->
  (exists x w', o = Raise x w' /\ data (sess w') = data (sess w) /\
                forallb is_early evs = true) \/
  (exists r tl,
      reading float_strip start e = Some r /\
      smu (sess w) <> None /\
      data (sess (final o)) = (data (sess w) ++ [sample_of r])%list /\
      evs = (head_events e (match response e with Some s => s | None => "" end)
                        (r_resistance r) (r_T r)
               ++ file_events (file (sess w)) (row_of r) ++ tl)%list /\
      plot_tail e w o tl).
Proof.
  intros Hi Ht. inversion Hi as [x w' evs' Hf Hs Hw Hd Ht' He | o' resp r T tl Hsm Hr Hp HT Hf Hs Hw Hd Ht' Hpl];
    subst; cbn [final] in *.
  - left. rewrite Ht in Ht'. apply app_inv_head in Ht'. subst evs'. eauto.
  - right. rewrite Ht in Ht'. apply app_inv_head in Ht'. subst evs.
    exists (mkReading (now e) (timer e - start) r T), tl.
    unfold reading. rewrite Hr, Hp, HT. cbn [r_resistance r_T sample_of row_of r_date r_t].
    auto.
Qed.

Lemma iter_file_writes (e : IterEnv) (w : world) (o : outcome unit)
  (r : Reading) (tl : list event) :
  plot_tail e w o tl ->
  file_writes (head_events e (match response e with Some s => s | None => "" end)
                 (r_resistance r) (r_T r)
                 ++ file_events (file (sess w)) (row_of r) ++ tl) =
  if truthy (file (sess w)) then [row_of r] else [].
Proof.
  intros Hp. rewrite !file_writes_app, (file_writes_tail _ _ _ _ Hp).
  unfold file_events. destruct (truthy (file (sess w))); reflexivity.
Qed.

(** The samples and the file rows of a loop are those of the readings of its
    first [k] iterations. *)
Lemma loop_post_readings start envs w o evs :
  loop_post float_strip start envs w o evs ->
  exists k,
    data (sess (final o)) =
      (data (sess w) ++ map sample_of (firstn k (readings float_strip start envs)))%list /\
    file_writes evs =
      if truthy (file (sess w))
      then map row_of (firstn k (readings float_strip start envs)) else [].
Proof.
  induction 1 as [envs w _ | w _ | e envs w x w' evs _ Hi Ht
                 | e envs w w1 o evs1 evs2 _ Hi Ht Hl IH]; cbn [final] in *.
  - exists O. cbn [firstn map]. rewrite app_nil_r. destruct (truthy _); auto.
  - exists O. cbn [firstn map]. rewrite app_nil_r. destruct (truthy _); auto.
  - destruct (iter_events _ _ _ _ _ Hi Ht) as [(x' & w'' & Ho & Hd & He) | (r & tl & Hr & _ & Hd & -> & Hp)].
    + exists O. cbn [firstn map]. inversion Ho; subst. rewrite app_nil_r.
      rewrite (file_writes_none _ _ early_not_file_write He). destruct (truthy _); auto.
    + exists 1%nat. cbn [readings]. rewrite Hr. cbn [firstn map final] in *.
      rewrite (iter_file_writes _ _ _ _ _ Hp). auto.
  - destruct (iter_events _ _ _ _ _ Hi Ht) as [(x' & w'' & Ho & _) | (r & tl & Hr & _ & Hd & -> & Hp)];
      [discriminate|].
    destruct IH as (k & IHd & IHf). exists (S k). cbn [readings]. rewrite Hr.
    assert (Hfile : file (sess w1) = file (sess w))
      by (inversion Hi; subst; cbn [final] in *; assumption).
    cbn [firstn map final] in *. split.
    + rewrite IHd, Hd, <- app_assoc. reflexivity.
    + rewrite file_writes_app, (iter_file_writes _ _ _ _ _ Hp), IHf, Hfile.
      destruct (truthy (file (sess w))); reflexivity.
Qed.






(** *** Properties of [run] *)

(** C2 (as amended). A run that returns has issued the output-off command
    and then notified the controller, as its last two actions.  A run that is
    aborted by an exception (a failed read, a response that does not parse, a
    resistance outside the calibration's domain, ...) has issued no
    output-off command at all, has not closed the file and has not notified
    the controller: [run] has no handler, the exception leaves it at once. *)
Theorem C2_output_off_only_on_return (env : RunEnv) (w : world) :
  (forall w', run float_strip env w = Ok tt w' ->
     exists evs, events_since w w' =
       (evs ++ [EvSmuWrite output_off_cmd; EvFinished true status_closed])%list) /\
  (forall x w', run float_strip env w = Raise x w' ->
     existsb is_output_off (events_since w w') = false /\
     existsb is_file_close (events_since w w') = false /\
     existsb is_finished (events_since w w') = false /\
     (smu (sess w) <> None -> existsb is_output_on (events_since w w') = true)).
Proof.
  destruct (run_sound env w) as (evs & Hr & Ht).
  split.
  - intros w' Ho. rewrite Ho in Hr, Ht. cbn [final] in Ht.
    rewrite (events_since_app _ _ _ Ht).
    inversion Hr as [ | w1 w2 w3 evs' _ _ _ _ _ _ | w1 o evs' _ _ _ _ Hn]; subst.
    + unfold epilogue_events.
      eexists. rewrite app_comm_cons, !app_assoc. reflexivity.
    + exfalso. eapply Hn. reflexivity.
  - intros x w' Ho. rewrite Ho in Hr, Ht. cbn [final] in Ht.
    rewrite (events_since_app _ _ _ Ht).
    inversion Hr as [ w'' Hnone _ _ | | w1 o evs' _ _ _ Hl _]; subst.
    + unfold open_events.
      destruct (truthy _); repeat split; try reflexivity; intros Hsome; contradiction.
    + pose proof (loop_post_frame _ _ _ _ _ Hl) as (_ & _ & _ & He).
      unfold prologue_events, open_events. rewrite !existsb_app.
      rewrite (existsb_none _ _ _ loop_event_not_off He),
        (existsb_none _ _ _ loop_event_not_close He),
        (existsb_none _ _ _ loop_event_not_finished He).
      destruct (truthy _); repeat split; reflexivity.
Qed.



(** C5 (as amended). The log file of a run holds two header lines, the
    line that says when the measurement started and the line of column
    titles, and after them one row per sample the run recorded: the timestamp
    as HH:MM:SS.ffffff, then the elapsed time, the resistance and the
    temperature in [.3f] format, separated by tabs. *)
Theorem C5_log_file_rows (env : RunEnv) (w : world) :
  truthy (file (sess w)) = true ->
  exists k,
    file_writes (events_since w (final (run float_strip env w))) =
      banner (ctime env) :: header
        :: map row_of (firstn k (readings float_strip (start_timer env) (iters env))) /\
    data (sess (final (run float_strip env w))) =
      (data (sess w)
         ++ map sample_of (firstn k (readings float_strip (start_timer env) (iters env))))%list.
Proof.
  intros Hfile.
  destruct (run_sound env w) as (evs & Hr & Ht).
  rewrite (events_since_app _ _ _ Ht).
  assert (Hpro : file_writes (prologue_events env (file (sess w))) =
                 [banner (ctime env); header])
    by (unfold prologue_events, open_events; rewrite Hfile; reflexivity).
  remember (run float_strip env w) as o eqn:Eo. clear Eo.
  destruct Hr as [ w'' Hnone Hd Htr | w1 w2 w3 evs' Hsome Hd Hf Hl Hs Hw
                 | w1 o evs' Hsome Hd Hf Hl Hn]; cbn [final] in *.
  - exists O. cbn [firstn map]. unfold open_events. rewrite Hfile, Hd, app_nil_r.
    split; reflexivity.
  - destruct (loop_post_readings _ _ _ _ _ Hl) as (k & Hdk & Hfk).
    exists k. cbn [final] in *. rewrite Hf, Hfile in Hfk.
    rewrite !file_writes_app, Hpro, Hfk, Hs, Hdk, Hd.
    unfold epilogue_events, close_events. rewrite Hfile. cbn. rewrite app_nil_r.
    split; reflexivity.
  - destruct (loop_post_readings _ _ _ _ _ Hl) as (k & Hdk & Hfk).
    exists k. rewrite Hf, Hfile in Hfk.
    rewrite !file_writes_app, Hpro, Hfk, Hdk, Hd.
    split; reflexivity.
Qed.


(** *** Timestamps *)





(** C7 (as amended). When [finish()] clears the flag while an iteration
    is under way, the loop takes no further iteration and at most one more
    sample is recorded.  If that iteration completes, the file is closed if
    one is open, the output-off command is issued and the controller is
    notified.  If that iteration raises, the exception leaves the run at
    once: the output is not switched off, the file is not closed and the
    controller is not notified. *)
Theorem C7_stop_takes_effect_at_boundary
  (start : float) (e : IterEnv) (envs : list IterEnv) (w : world) (q : nat) :
  alive (sess w) = true ->
  stop_at e = Some q ->
  (q <= last_point)%nat ->
  let o := (loop float_strip start (e :: envs) ;; epilogue) w in
  (List.length (data (sess (final o))) <= S (List.length (data (sess w))))%nat /\
  (forall w1, iteration float_strip start e w = Ok tt w1 ->
     exists w2,
       o = Ok tt w2 /\
       alive (sess w2) = false /\
       data (sess w2) = data (sess w1) /\
       events_since w1 w2 =
         (EvPrint ("Finished" ++ nl) :: close_events (file (sess w))
            ++ [EvSmuWrite output_off_cmd; EvFinished true status_closed])%list) /\
  (forall x w1, iteration float_strip start e w = Raise x w1 ->
     o = Raise x w1 /\
     existsb is_output_off (events_since w w1) = false /\
     existsb is_file_close (events_since w w1) = false /\
     existsb is_finished (events_since w w1) = false).
Proof.
  intros Ha Hq Hle o.
  assert (Hst : stopped e = true)
    by (unfold stopped; rewrite Hq; apply Nat.leb_le; exact Hle).
  assert (Ho : o = match iteration float_strip start e w with
                   | Ok _ w1 => (loop float_strip start envs ;; epilogue) w1
                   | Raise x w1 => Raise x w1
                   | Running w1 => Running w1
                   end).
  { unfold o, bind at 1. cbn [loop]. rewrite Ha. unfold bind at 1.
    destruct (iteration float_strip start e w); reflexivity. }
  pose proof (iteration_post start e w) as Hi.
  destruct (iteration float_strip start e w) as [[] w1 | x w1 | w1].
  - assert (Hw1 : alive (sess w1) = false /\ smu (sess w1) <> None /\
                  file (sess w1) = file (sess w) /\
                  exists T, data (sess w1) = (data (sess w) ++ [(now e, T)])%list).
    { inversion Hi as [ | o' resp r T tl Hsm _ _ _ Hf Hs _ Hd _ Hp]; subst; cbn [final] in *.
      repeat split; eauto; [|congruence].
      unfold plot_tail in Hp. destruct (f (sess w)).
      - destruct Hp as (pevs & _ & _ & _ & Hal).
        rewrite Hal, Hst, andb_false_r. reflexivity.
      - destruct Hp as [_ [w' Hw']]. discriminate. }
    destruct Hw1 as (Hal & Hsm & Hf & T & Hd).
    assert (Hl : loop float_strip start envs w1 = Ok tt w1)
      by (destruct envs; cbn [loop]; rewrite Hal; reflexivity).
    assert (Ho' : o = epilogue w1) by (rewrite Ho; unfold bind; rewrite Hl; reflexivity).
    destruct w1 as [[fl1 pf1 dt1 al1 [d1|]] wn1 tr1]; [|exfalso; apply Hsm; reflexivity].
    cbn [sess file alive data] in *. rewrite epilogue_some in Ho'.
    split; [|split].
    + rewrite Ho'. cbn [final sess data]. rewrite Hd, length_app. cbn [List.length]. lia.
    + intros w1' Hw1'. inversion Hw1'; subst w1'. eexists. split; [exact Ho'|].
      cbn [sess alive data]. repeat split; [assumption|].
      rewrite (events_since_app _ _ (epilogue_events fl1)) by reflexivity.
      subst fl1. reflexivity.
    + discriminate.
  - split; [|split; [discriminate|]].
    + rewrite Ho. cbn [final].
      inversion Hi as [x' w' evs _ _ _ Hd _ _ | o' resp r T tl _ _ _ _ _ _ _ Hd _ _];
        subst; cbn [final] in *; rewrite Hd, ?length_app; cbn [List.length]; lia.
    + intros x' w1' Hx. inversion Hx; subst x' w1'. split; [exact Ho|].
      destruct (iter_post_trace _ _ _ _ Hi) as (evs & Ht & He). cbn [final] in Ht.
      rewrite (events_since_app _ _ _ Ht).
      rewrite (existsb_none _ _ _ loop_event_not_off He),
        (existsb_none _ _ _ loop_event_not_close He),
        (existsb_none _ _ _ loop_event_not_finished He).
      repeat split.
  - exfalso. eapply iter_post_not_running; eassumption.
Qed.

(** C9 (as amended). In an iteration that completes, the elapsed time is
    taken first, then the measurement is requested, read and converted; the
    50 ms sleep comes next; only after the sleep is the wall-clock timestamp
    taken, the file row written (when a file is open), the sample recorded
    and the point forwarded to the plot. *)
Theorem C9_sleep_precedes_recording (start : float) (e : IterEnv) (w w' : world) :
  iteration float_strip start e w = Ok tt w' ->
  exists resp r T pevs,
    events_since w w' =
      ([ EvTimer (timer e); EvSmuWrite measure_cmd; EvSmuRead resp;
         EvPrint ("Resistance: " ++ PyFloat.format_f 2 r ++ " Ohms" ++ tab);
         EvPrint (" Temperature: " ++ PyFloat.format_f 2 T ++ " deg. C" ++ nl);
         EvSleep 0.05;
         EvNow (now e) ]
       ++ file_events (file (sess w)) (row (now e) (timer e - start) r T)
       ++ EvIsVisible (visible e) :: pevs)%list /\
    forallb is_plot_event pevs = true /\
    data (sess w') = (data (sess w) ++ [(now e, T)])%list /\
    occurs_before is_sleep is_now (events_since w w') = true /\
    occurs_before is_sleep is_forward (events_since w w') = true /\
    (truthy (file (sess w)) = true ->
     occurs_before is_sleep is_file_write (events_since w w') = true).
Proof.
  intros Ho. pose proof (iteration_post start e w) as Hi. rewrite Ho in Hi.
  inversion Hi as [ | o' resp r T tl _ _ _ _ _ _ _ Hd Ht Hp]; subst; cbn [final] in *.
  unfold plot_tail in Hp. destruct (f (sess w)).
  - destruct Hp as (pevs & -> & Hpe & _).
    rewrite (events_since_app _ _ _ Ht).
    exists resp, r, T, pevs. unfold head_events.
    split; [reflexivity|]. split; [assumption|]. split; [assumption|].
    assert (Hfe : exists l, file_events (file (sess w)) (row (now e) (timer e - start) r T) = l
                            /\ (l = [] \/ l = [EvFileWrite (row (now e) (timer e - start) r T)])
                            /\ (truthy (file (sess w)) = true ->
                                 l = [EvFileWrite (row (now e) (timer e - start) r T)])).
    { unfold file_events. destruct (truthy _); eexists; split; try reflexivity; split; auto.
      discriminate. }
    destruct Hfe as (l & -> & Hl & Hl').
    split; [destruct Hl as [-> | ->]; reflexivity|].
    split; [destruct Hl as [-> | ->]; reflexivity|].
    intros Hfl. rewrite (Hl' Hfl). reflexivity.
  - destruct Hp as [_ [w'' Hw'']]. discriminate.
Qed.

End RunFacts.

(** ** The heating speed *)

Lemma heating_speed_of_last (xs : list datetime) (ys : list float) (x : datetime) (y : float) :
  List.length ys = List.length xs ->
  (step <= List.length xs)%nat ->
  heating_speed_of (xs ++ [x]) (ys ++ [y]) =
  if seconds (DateTime.sub x (nth (List.length xs - step) xs x)) =? 0
  then Some (inl ZeroDivisionError)
  else Some (inr ((y - nth (List.length xs - step) ys y)
                  / PyFloat.of_int (seconds (DateTime.sub x (nth (List.length xs - step) xs x)))
                  * 60)%float).
Proof.
  intros Hlen Hstep. unfold heating_speed_of. rewrite length_app. cbn [List.length].
  unfold step in *.
  replace (List.length xs + 1 - 1)%nat with (List.length xs) by lia.
  replace (List.length xs + 1 - 50 - 1)%nat with (List.length xs - 50)%nat by lia.
  rewrite (nth_error_app2 ys [y]) by lia. rewrite Hlen, Nat.sub_diag. cbn [nth_error].
  rewrite (nth_error_app1 ys [y]) by lia.
  rewrite (nth_error_nth' ys y) by lia.
  rewrite (nth_error_app2 xs [x]) by lia. rewrite Nat.sub_diag. cbn [nth_error].
  rewrite (nth_error_app1 xs [x]) by lia.
  rewrite (nth_error_nth' xs x) by lia.
  reflexivity.
Qed.

(** X16. What [update_plot] does about the heating speed.  With [i]
    points already on the plot, the next sample has index [i].  While
    [i < 50] (fewer than 51 samples) no rate is computed, the label keeps its
    text and nothing is raised.  From [i >= 50] on, the label shows, with two
    decimals, [(T[i] - T[i-50]) / s * 60] where [s] is the [seconds] field of
    the difference of the two timestamps (whole seconds, without the
    microseconds and the days), as long as [s] is not zero. *)
Theorem X16_heating_speed_label (x : datetime) (y : float) (w : world) (p : PlotWindow) :
  f (sess w) = Some p ->
  List.length (lines_y p) = List.length (lines_x p) ->
  ((List.length (lines_x p) < step)%nat ->
   exists w' p',
     update_plot x y true w = Ok 0 w' /\
     f (sess w') = Some p' /\
     heating_speed p' = heating_speed p /\
     existsb is_heating_text (events_since w w') = false) /\
  ((step <= List.length (lines_x p))%nat ->
   seconds (DateTime.sub x (nth (List.length (lines_x p) - step) (lines_x p) x)) <> 0 ->
   exists w' p',
     update_plot x y true w = Ok 0 w' /\
     f (sess w') = Some p' /\
     heating_speed p' =
       heating_text
         ((y - nth (List.length (lines_x p) - step) (lines_y p) y)
          / PyFloat.of_int
              (seconds (DateTime.sub x (nth (List.length (lines_x p) - step) (lines_x p) x)))
          * 60)%float).
Proof.
  destruct w as [[fl pf dt al sm] wn tr]. cbn [sess f]. intros -> Hlen.
  unfold update_plot. run_prims. cbn [negb]. run_prims.
  set (x_data := (lines_x p ++ [x])%list).
  set (y_data := (lines_y p ++ [y])%list).
  assert (Hi : List.length x_data = S (List.length (lines_x p)))
    by (unfold x_data; rewrite length_app; cbn [List.length]; lia).
  split.
  - intros Hlt.
    replace (step <? List.length x_data)%nat with false
      by (symmetry; apply Nat.ltb_ge; lia).
    destruct ((1 <? PyFloat.of_int (seconds (DateTime.sub x (nth 0 x_data x))) / 60 / 60)%float);
      run_prims; do 2 eexists; (split; [reflexivity|]); cbn [sess f heating_speed];
      (split; [reflexivity|]); (split; [reflexivity|]);
      erewrite events_since_app
        by (cbn [trace]; rewrite <- !app_assoc; cbn [app]; reflexivity);
      reflexivity.
  - intros Hge Hs.
    replace (step <? List.length x_data)%nat with true
      by (symmetry; apply Nat.ltb_lt; lia).
    apply Z.eqb_neq in Hs.
    assert (Hh : heating_speed_of x_data y_data =
                 Some (inr ((y - nth (List.length (lines_x p) - step) (lines_y p) y)
                            / PyFloat.of_int
                                (seconds (DateTime.sub x
                                   (nth (List.length (lines_x p) - step) (lines_x p) x)))
                            * 60)%float))
      by (unfold x_data, y_data; rewrite (heating_speed_of_last _ _ _ _ Hlen Hge), Hs;
          reflexivity).
    rewrite Hh.
    destruct ((1 <? PyFloat.of_int (seconds (DateTime.sub x (nth 0 x_data x))) / 60 / 60)%float);
      run_prims; do 2 eexists; (split; [reflexivity|]); cbn [sess f heating_speed];
      split; reflexivity.
Qed.

(** ** The main window *)

(** C3. When the resource manager lists no instrument, creating the session
    prints the message [no_device_msg] and then fails in [reset_device], so
    that nothing was written to any instrument (not even by the destructor)
    and [startmiu] never gets to start the thread that would run the loop. *)
Theorem C3_no_device_no_run (name : string) (w : world) :
  (exists w',
     Session_init name [] w = Raise AttributeError w' /\
     events_since w w' = [EvPrintDevices []; EvPrint (no_device_msg ++ nl)] /\
     Session_del w' = Raise AttributeError w') /\
  (forall text yes,
     truthy text = false \/ yes = true ->
     exists w',
       startmiu (mkStartEnv text yes []) w = Raise AttributeError w' /\
       In (EvPrint (no_device_msg ++ nl)) (events_since w w') /\
       existsb is_smu_write (events_since w w') = false /\
       existsb is_thread_start (events_since w w') = false).
Proof.
  destruct w as [[fl pf dt al sm] wn tr]. split.
  - unfold Session_init, connect_to_device, reset_device. run_prims. cbn [nth_error]. run_prims.
    eexists. split; [reflexivity|]. split.
    + apply events_since_app. cbn [trace]. rewrite <- app_assoc. reflexivity.
    + unfold Session_del, reset_device. run_prims. reflexivity.
  - intros text yes Hattempt.
    unfold startmiu, new_Session, Session_init, connect_to_device, reset_device, set_aus.
    run_prims. cbn [file_text overwrite list_resources].
    destruct (truthy text) eqn:Et.
    + destruct Hattempt as [ Hf | -> ]; [discriminate|].
      run_prims. cbn [nth_error]. run_prims.
      eexists. split; [reflexivity|].
      erewrite events_since_app
        by (cbn [trace]; rewrite <- !app_assoc; cbn [app]; reflexivity).
      repeat split; cbn; auto.
    + run_prims. cbn [nth_error]. run_prims.
      eexists. split; [reflexivity|].
      erewrite events_since_app
        by (cbn [trace]; rewrite <- !app_assoc; cbn [app]; reflexivity).
      repeat split; cbn; auto.
Qed.

Lemma C3_no_device_no_run_witness :
  exists w',
    startmiu (mkStartEnv "" true []) Examples.idle = Raise AttributeError w' /\
    In (EvPrint (no_device_msg ++ nl)) (events_since Examples.idle w') /\
    existsb is_smu_write (events_since Examples.idle w') = false /\
    existsb is_thread_start (events_since Examples.idle w') = false.
Proof.
  apply (proj2 (C3_no_device_no_run "" Examples.idle) "" true). right. reflexivity.
Defined.

(** C10. With a session in place, the Stop button calls [finish] with one
    positional argument although [finish] takes none: the call raises
    [TypeError], the running flag keeps its value, and the rest of [stopmiu]
    (the status message of a manual stop) is not executed. *)
Theorem C10_stop_button_raises (w : world) :
  messung (win w) = true ->
  exists w',
    stopmiu w = Raise TypeError w' /\
    sess w' = sess w /\
    alive (sess w') = alive (sess w) /\
    events_since w w' = [] /\
    statusBar (win w') = statusBar (win w).
Proof.
  destruct w as [[fl pf dt al sm] [ms au bs be sb] tr]. cbn [win messung]. intros ->.
  unfold stopmiu, call_finish, set_aus. run_prims.
  eexists. split; [reflexivity|]. cbn [sess win alive statusBar].
  repeat split. apply events_since_app. cbn [trace]. rewrite app_nil_r. reflexivity.
Qed.

Lemma C10_stop_button_raises_witness :
  exists w',
    stopmiu Examples.started = Raise TypeError w' /\
    sess w' = sess Examples.started /\
    alive (sess w') = alive (sess Examples.started) /\
    events_since Examples.started w' = [] /\
    statusBar (win w') = statusBar (win Examples.started).
Proof.
  apply (C10_stop_button_raises Examples.started). reflexivity.
Defined.

(** ** Concrete runs *)

Section Concrete.
Import Examples MoreExamples.

Lemma C2_output_off_only_on_return_witness :
  (exists evs, events_since started (after three_samples) =
     (evs ++ [EvSmuWrite output_off_cmd; EvFinished true status_closed])%list) /\
  existsb is_output_off (events_since started (after bad_reading)) = false /\
  existsb is_file_close (events_since started (after bad_reading)) = false /\
  existsb is_finished (events_since started (after bad_reading)) = false /\
  existsb is_output_on (events_since started (after bad_reading)) = true.
Proof.
  split.
  - apply (proj1 (C2_output_off_only_on_return read_decimal three_samples started)).
    vm_compute. reflexivity.
  - assert (Hrun : run read_decimal bad_reading started =
                   Raise (ValueError "could not convert string to float")
                     (after bad_reading))
      by (vm_compute; reflexivity).
    destruct (proj2 (C2_output_off_only_on_return read_decimal bad_reading started)
                _ _ Hrun) as (H1 & H2 & H3 & H4).
    split; [exact H1|]. split; [exact H2|]. split; [exact H3|].
    apply H4. vm_compute. discriminate.
Defined.

(** A response that does not parse, and a resistance outside the domain of
    the calibration, each abort the run with the output switched on and never
    switched off. *)
Lemma C2_counterexample :
  (exists w',
     run read_decimal bad_reading started =
       Raise (ValueError "could not convert string to float") w' /\
     existsb is_output_on (events_since started w') = true /\
     existsb is_output_off (events_since started w') = false) /\
  (exists w',
     run read_decimal out_of_range started = Raise (ValueError "math domain error") w' /\
     existsb is_output_on (events_since started w') = true /\
     existsb is_output_off (events_since started w') = false).
Proof.
  split.
  - exists (after bad_reading).
    split; [vm_compute; reflexivity|]. split; vm_compute; reflexivity.
  - exists (after out_of_range).
    split; [vm_compute; reflexivity|]. split; vm_compute; reflexivity.
Qed.

Lemma X16_heating_speed_label_witness :
  (exists w' p',
     update_plot (now plain_iter) (celsius 5000) true started = Ok 0 w' /\
     f (sess w') = Some p' /\
     heating_speed p' = heating_speed PlotWindow_init /\
     existsb is_heating_text (events_since started w') = false) /\
  (exists w' p',
     update_plot (now (ramp_iter 50)) (celsius 5050) true (after (ramp 50)) = Ok 0 w' /\
     f (sess w') = Some p' /\
     heating_speed p' = "Heating speed: 246.30 ⁰C/min").
Proof.
  split.
  - apply (proj1 (X16_heating_speed_label (now plain_iter) (celsius 5000) started
                    PlotWindow_init eq_refl eq_refl)).
    unfold step. cbn. lia.
  - assert (Hf : f (sess (after (ramp 50))) = Some (plot_of (after (ramp 50))))
      by (vm_compute; reflexivity).
    assert (Hlen : List.length (lines_y (plot_of (after (ramp 50)))) =
                   List.length (lines_x (plot_of (after (ramp 50)))))
      by (vm_compute; reflexivity).
    assert (Hge : (step <= List.length (lines_x (plot_of (after (ramp 50)))))%nat)
      by (apply Nat.leb_le; vm_compute; reflexivity).
    assert (Hs : seconds (DateTime.sub (now (ramp_iter 50))
                   (nth (List.length (lines_x (plot_of (after (ramp 50)))) - step)
                      (lines_x (plot_of (after (ramp 50)))) (now (ramp_iter 50)))) <> 0)
      by (apply Z.eqb_neq; vm_compute; reflexivity).
    destruct (proj2 (X16_heating_speed_label (now (ramp_iter 50)) (celsius 5050)
                       (after (ramp 50)) (plot_of (after (ramp 50))) Hf Hlen) Hge Hs)
      as (w' & p' & H1 & H2 & H3).
    exists w', p'. split; [exact H1|]. split; [exact H2|].
    rewrite H3. vm_compute. reflexivity.
Defined.

(** C4 (a defect of the code). Fifty-one samples taken 110 ms apart: the
    timestamps of the first and the last are 5.5 s apart, and so are their
    elapsed times.  [update_plot] divides the difference of the temperatures
    by the [seconds] field of the difference of the timestamps, which is 5,
    and the label shows 246.30, where the rate in degrees per minute, over
    the 5.5 s that passed, is 223.91. *)
Lemma C4_rate_over_whole_seconds :
  let w := after (ramp 51) in
  let x := map fst (data (sess w)) in
  let d := DateTime.sub (nth 50 x (noon 0 0)) (nth 0 x (noon 0 0)) in
  List.length (data (sess w)) = 51%nat /\
  DateTime.to_us (nth 50 x (noon 0 0)) - DateTime.to_us (nth 0 x (noon 0 0)) = 5500000 /\
  PyFloat.format_f 2
    (nth 50 (elapsed_of (ramp 51)) 0 - nth 0 (elapsed_of (ramp 51)) 0)%float = "5.50" /\
  (days d, seconds d, microseconds d) = (0, 5, 500000) /\
  displayed w = "Heating speed: 246.30 ⁰C/min" /\
  heating_text (spec_heating_speed (temperatures_of w) (elapsed_of (ramp 51)) 50)
    = "Heating speed: 223.91 ⁰C/min" /\
  displayed w <>
    heating_text (spec_heating_speed (temperatures_of w) (elapsed_of (ramp 51)) 50).
Proof.
  cbv zeta.
  split; [vm_compute; reflexivity|].
  split; [vm_compute; reflexivity|].
  split; [vm_compute; reflexivity|].
  split; [vm_compute; reflexivity|].
  split; [vm_compute; reflexivity|].
  split; [vm_compute; reflexivity|].
  apply String.eqb_neq. vm_compute. reflexivity.
Qed.

Lemma C5_log_file_rows_witness :
  exists k,
    file_writes (events_since started (final (run read_decimal three_samples started))) =
      banner (ctime three_samples) :: header
        :: map row_of (firstn k (readings read_decimal (start_timer three_samples)
                                   (iters three_samples))) /\
    data (sess (final (run read_decimal three_samples started))) =
      (data (sess started)
         ++ map sample_of (firstn k (readings read_decimal (start_timer three_samples)
                                       (iters three_samples))))%list.
Proof.
  apply (C5_log_file_rows read_decimal three_samples started). reflexivity.
Defined.

(** Three samples give a file of five lines: two header lines, then the three
    rows. *)
Lemma C5_counterexample :
  List.length (file_writes (events_since started (after three_samples))) <>
  S (List.length (data (sess (after three_samples)))).
Proof.
  vm_compute. discriminate.
Qed.



Lemma C7_stop_takes_effect_at_boundary_witness :
  (List.length
     (data (sess (final ((loop read_decimal 100 (stop_iter :: iters three_samples)
                            ;; epilogue) started))))
   <= S (List.length (data (sess started))))%nat /\
  exists w2,
    (loop read_decimal 100 (stop_iter :: iters three_samples) ;; epilogue) started
      = Ok tt w2 /\
    alive (sess w2) = false /\
    data (sess w2) = data (sess (final (iteration read_decimal 100 stop_iter started))) /\
    events_since (final (iteration read_decimal 100 stop_iter started)) w2 =
      (EvPrint ("Finished" ++ nl) :: close_events (file (sess started))
         ++ [EvSmuWrite output_off_cmd; EvFinished true status_closed])%list.
Proof.
  destruct (C7_stop_takes_effect_at_boundary read_decimal 100 stop_iter
              (iters three_samples) started 3 eq_refl eq_refl
              (proj1 (Nat.leb_le 3 last_point) eq_refl)) as (H1 & H2 & _).
  split; [exact H1|]. apply H2. vm_compute. reflexivity.
Defined.

(** [finish()] takes effect in the second iteration of a run, after the
    response was read; the response is not a number.  The run raises with the
    flag cleared and one sample recorded: the output, switched on by the
    prologue, is not switched off, the file is not closed, the controller is
    not notified. *)
Lemma C7_counterexample :
  exists w',
    run read_decimal stopped_failing_run started =
      Raise (ValueError "could not convert string to float") w' /\
    alive (sess w') = false /\
    List.length (data (sess w')) = S (List.length (data (sess started))) /\
    existsb is_output_on (events_since started w') = true /\
    existsb is_output_off (events_since started w') = false /\
    existsb is_file_close (events_since started w') = false /\
    existsb is_finished (events_since started w') = false.
Proof.
  exists (after stopped_failing_run).
  split; [vm_compute; reflexivity|].
  split; [vm_compute; reflexivity|].
  split; [vm_compute; reflexivity|].
  split; [vm_compute; reflexivity|].
  split; [vm_compute; reflexivity|].
  split; vm_compute; reflexivity.
Qed.



Lemma C9_sleep_precedes_recording_witness :
  occurs_before is_sleep is_now
    (events_since started (final (iteration read_decimal 100 plain_iter started))) = true /\
  occurs_before is_sleep is_forward
    (events_since started (final (iteration read_decimal 100 plain_iter started))) = true /\
  occurs_before is_sleep is_file_write
    (events_since started (final (iteration read_decimal 100 plain_iter started))) = true.
Proof.
  assert (Hit : iteration read_decimal 100 plain_iter started =
                Ok tt (final (iteration read_decimal 100 plain_iter started)))
    by (vm_compute; reflexivity).
  destruct (C9_sleep_precedes_recording read_decimal 100 plain_iter started _ Hit)
    as (resp & r & T & pevs & _ & _ & _ & H1 & H2 & H3).
  split; [exact H1|]. split; [exact H2|]. apply H3. reflexivity.
Defined.

(** In an iteration the sleep is the sixth action; the timestamp, the file
    row and the call of [update_plot] all come after it. *)
Lemma C9_counterexample :
  ~ spec_step_order
      (events_since started (final (iteration read_decimal 100 plain_iter started))).
Proof.
  intros [H _]. vm_compute in H. discriminate.
Qed.

End Concrete.

(** * Further facts

    ** Dates and time differences *)

Lemma sub_normalised (l r : datetime) :
  0 <= seconds (DateTime.sub l r) < 86400 /\
  0 <= microseconds (DateTime.sub l r) < 1000000.
Proof.
  unfold DateTime.sub, new_delta. cbn [seconds microseconds].
  split; apply Z.mod_pos_bound; lia.
Qed.

(** The difference of two datetimes is their distance on the time line. *)
Lemma sub_to_us (l r : datetime) :
  td_us (DateTime.sub l r) = to_us l - to_us r.
Proof.
  unfold td_us, DateTime.sub, new_delta, to_us. cbn [days seconds microseconds].
  destruct l as [lo lh lm ls lu], r as [ro rh rm rs ru].
  cbn [ordinal hour minute second microsecond].
  set (us := lu - ru). set (s := (lh - rh) * 3600 + (lm - rm) * 60 + (ls - rs)).
  pose proof (Z.div_mod us 1000000 ltac:(lia)).
  pose proof (Z.div_mod (s + us / 1000000) 86400 ltac:(lia)).
  unfold us, s in *. lia.
Qed.

(** Adding a multiple of a time difference moves a datetime by that much. *)
Lemma add_timedelta_to_us (dt : datetime) (td : timedelta) (k : Z) :
  to_us (add_timedelta dt td k) = to_us dt + k * td_us td.
Proof.
  unfold add_timedelta, to_us, td_us.
  destruct dt as [o h m s u], td as [d ts tu].
  cbn [ordinal hour minute second microsecond days seconds microseconds].
  set (us := u + tu * k).
  set (s1 := s + ts * k + us / 1000000).
  set (m1 := m + s1 / 60).
  set (h1 := h + m1 / 60).
  pose proof (Z.div_mod us 1000000 ltac:(lia)).
  pose proof (Z.div_mod s1 60 ltac:(lia)).
  pose proof (Z.div_mod m1 60 ltac:(lia)).
  pose proof (Z.div_mod h1 24 ltac:(lia)).
  unfold h1, m1, s1, us in *. lia.
Qed.

Lemma forall_range_spec (p : Z -> bool) (n : nat) : forall lo s,
  forall_range p lo n = true -> lo <= s < lo + Z.of_nat n -> p s = true.
Proof.
  induction n as [|n IH]; intros lo s H Hs; [lia|].
  cbn [forall_range] in H. apply andb_prop in H. destruct H as [H0 H1].
  destruct (Z.eq_dec s lo) as [->|Hne]; [assumption|].
  apply (IH (lo + 1)); [assumption|lia].
Qed.

(** Over the whole range of [timedelta.seconds], the floating-point test
    [seconds/60/60 > 1] holds exactly above 3600 seconds. *)
Lemma over_an_hour_spec (s : Z) :
  0 <= s < 86400 -> over_an_hour s = (3600 <? s).
Proof.
  intros Hs. apply Bool.eqb_prop.
  apply (forall_range_spec (fun s => Bool.eqb (over_an_hour s) (3600 <? s))
           (Z.to_nat 86400) 0); [vm_compute; reflexivity | lia].
Qed.

(** ** The plot window *)

(** The state of the plot after [update_plot] found the window open,
    whether the call returned or raised. *)
Lemma update_plot_open (x : datetime) (y : float) (w : world) (p : PlotWindow) :
  f (sess w) = Some p ->
  exists p',
    f (sess (final (update_plot x y true w))) = Some p' /\
    lines_x p' = (lines_x p ++ [x])%list /\
    lines_y p' = (lines_y p ++ [y])%list /\
    xlim p' =
      if over_an_hour (seconds (DateTime.sub x (nth 0 (lines_x p ++ [x]) x)))
      then Some (add_timedelta (add_timedelta x (new_delta 0 3600 0) (-1))
                   (new_delta 0 180 0) (-1),
                 add_timedelta x (new_delta 0 180 0) 1)
      else xlim p.
Proof.
  destruct w as [[fl pf dt al sm] wn tr]. cbn [sess f]. intros ->.
  unfold update_plot, over_an_hour. run_prims. cbn [negb]. run_prims.
  set (x_data := (lines_x p ++ [x])%list).
  set (y_data := (lines_y p ++ [y])%list).
  destruct ((1 <? PyFloat.of_int (seconds (DateTime.sub x (nth 0 x_data x))) / 60 / 60)%float);
    run_prims;
    (destruct (step <? List.length x_data)%nat; run_prims;
     [ destruct (heating_speed_of x_data y_data) as [[ex|hs]|]; run_prims | ]);
    eexists; cbn [final sess f lines_x lines_y xlim]; repeat split.
Qed.

(** [update_plot] on a closed window. *)
Lemma update_plot_closed (x : datetime) (y : float) (w : world) (p : PlotWindow) :
  f (sess w) = Some p ->
  exists w',
    update_plot x y false w = Ok (-1) w' /\
    f (sess w') = Some p /\
    alive (sess w') = false /\
    data (sess w') = data (sess w) /\
    events_since w w' = [EvIsVisible false].
Proof.
  intros Hf. destruct w as [[fl pf dt al sm] wn tr]. cbn [sess f] in Hf. subst pf.
  unfold update_plot. run_prims. cbn [negb]. run_prims.
  eexists. split; [reflexivity|]. cbn [sess f alive data].
  repeat split. apply events_since_app. reflexivity.
Qed.

(** X1. An open plot window gets exactly the new point, appended to both
    series, whether [update_plot] returns or its rate computation raises; a
    closed one is left as it is: the call returns -1, clears the running
    flag and touches neither the plot nor the samples. *)
Theorem X1_update_plot_appends_point (x : datetime) (y : float) (w : world) (p : PlotWindow) :
  f (sess w) = Some p ->
  (exists p',
     f (sess (final (update_plot x y true w))) = Some p' /\
     lines_x p' = (lines_x p ++ [x])%list /\
     lines_y p' = (lines_y p ++ [y])%list) /\
  (exists w',
     update_plot x y false w = Ok (-1) w' /\
     f (sess w') = Some p /\
     alive (sess w') = false /\
     data (sess w') = data (sess w) /\
     events_since w w' = [EvIsVisible false]).
Proof.
  intros Hf. split.
  - destruct (update_plot_open x y w p Hf) as (p' & H1 & H2 & H3 & _). eauto.
  - exact (update_plot_closed x y w p Hf).
Qed.

(** X2. The x-axis limits follow the [seconds] field of the distance to the
    first point on the plot: up to 3600 they are left alone; above 3600 they
    are set to the window from 63 minutes before the new point to 3 minutes
    after it. *)
Theorem X2_xlim_window (x : datetime) (y : float) (w : world) (p : PlotWindow) :
  f (sess w) = Some p ->
  exists p',
    f (sess (final (update_plot x y true w))) = Some p' /\
    (seconds (DateTime.sub x (nth 0 (lines_x p ++ [x]) x)) <= 3600 ->
     xlim p' = xlim p) /\
    (3600 < seconds (DateTime.sub x (nth 0 (lines_x p ++ [x]) x)) ->
     exists lo hi,
       xlim p' = Some (lo, hi) /\
       to_us lo = to_us x - 3780000000 /\
       to_us hi = to_us x + 180000000).
Proof.
  intros Hf.
  destruct (update_plot_open x y w p Hf) as (p' & H1 & _ & _ & H4).
  exists p'. split; [exact H1|].
  rewrite over_an_hour_spec in H4 by apply sub_normalised.
  split; intros Hs.
  - replace (3600 <? _) with false in H4 by (symmetry; apply Z.ltb_ge; exact Hs).
    exact H4.
  - replace (3600 <? _) with true in H4 by (symmetry; apply Z.ltb_lt; exact Hs).
    do 2 eexists. split; [exact H4|].
    rewrite !add_timedelta_to_us.
    change (td_us (new_delta 0 3600 0)) with 3600000000.
    change (td_us (new_delta 0 180 0)) with 180000000.
    split; lia.
Qed.

(** X3. With at least 51 points, when the two timestamps of the rate
    differ by a time whose [seconds] field is zero, the division raises
    [ZeroDivisionError]; the handler for [IndexError] does not catch it, so
    [update_plot] raises, after the point was added and before the redraw. *)
Theorem X3_zero_seconds_raises (x : datetime) (y : float) (w : world) (p : PlotWindow) :
  f (sess w) = Some p ->
  List.length (lines_y p) = List.length (lines_x p) ->
  (step <= List.length (lines_x p))%nat ->
  seconds (DateTime.sub x (nth (List.length (lines_x p) - step) (lines_x p) x)) = 0 ->
  exists w',
    update_plot x y true w = Raise ZeroDivisionError w' /\
    existsb (fun ev => match ev with EvDraw => true | _ => false end)
      (events_since w w') = false /\
    existsb is_heating_text (events_since w w') = false /\
    alive (sess w') = alive (sess w).
Proof.
  destruct w as [[fl pf dt al sm] wn tr]. cbn [sess f]. intros -> Hlen Hge Hs.
  unfold update_plot. run_prims. cbn [negb]. run_prims.
  set (x_data := (lines_x p ++ [x])%list).
  set (y_data := (lines_y p ++ [y])%list).
  assert (Hi : List.length x_data = S (List.length (lines_x p)))
    by (unfold x_data; rewrite length_app; cbn [List.length]; lia).
  replace (step <? List.length x_data)%nat with true
    by (symmetry; apply Nat.ltb_lt; lia).
  assert (Hh : heating_speed_of x_data y_data = Some (inl ZeroDivisionError))
    by (unfold x_data, y_data; rewrite (heating_speed_of_last _ _ _ _ Hlen Hge), Hs;
        reflexivity).
  rewrite Hh.
  destruct ((1 <? PyFloat.of_int (seconds (DateTime.sub x (nth 0 x_data x))) / 60 / 60)%float);
    run_prims; eexists; (split; [reflexivity|]); cbn [sess alive];
    erewrite events_since_app
      by (cbn [trace]; rewrite <- ?app_assoc; cbn [app]; reflexivity);
    repeat split.
Qed.

(** ** Iterations that fail *)

Section MoreRunFacts.
Variable float_strip : string -> option float.

(** X4. A measurement that fails makes the iteration raise before the
    sleep: a failed read raises [VisaIOError] after the query was sent, a
    response that is not a number raises [ValueError] after it was read, and
    a resistance outside the calibration's domain raises the error of
    [math.sqrt] after the resistance was printed.  In each case no sample is
    recorded, no row is written and the plot is not touched. *)
Theorem X4_failed_measurement (start : float) (e : IterEnv) (w : world) :
  smu (sess w) <> None ->
  (response e = None ->
   exists w',
     iteration float_strip start e w = Raise VisaIOError w' /\
     events_since w w' = [EvTimer (timer e); EvSmuWrite measure_cmd] /\
     data (sess w') = data (sess w) /\ f (sess w') = f (sess w)) /\
  (forall resp,
     response e = Some resp -> float_strip resp = None ->
     exists w',
       iteration float_strip start e w =
         Raise (ValueError "could not convert string to float") w' /\
       events_since w w' = [EvTimer (timer e); EvSmuWrite measure_cmd; EvSmuRead resp] /\
       data (sess w') = data (sess w) /\ f (sess w') = f (sess w)) /\
  (forall resp r x,
     response e = Some resp -> float_strip resp = Some r -> temperature r = inl x ->
     exists w',
       iteration float_strip start e w = Raise x w' /\
       events_since w w' =
         [EvTimer (timer e); EvSmuWrite measure_cmd; EvSmuRead resp;
          EvPrint ("Resistance: " ++ PyFloat.format_f 2 r ++ " Ohms" ++ tab)] /\
       data (sess w') = data (sess w) /\ f (sess w') = f (sess w)).
Proof.
  destruct w as [[fl pf dt al [d|]] wn tr]; cbn [sess smu data f]; [intros _|congruence].
  split; [|split].
  - intros Hr. unfold iteration, parse. cbv beta delta [bind].
    rewrite yield_mk. run_prims. rewrite yield_mk. run_prims. rewrite yield_mk. run_prims.
    rewrite Hr. eexists. split; [reflexivity|]. cbn [sess data f].
    split; [|split; reflexivity].
    apply events_since_app. cbn [trace]. rewrite <- !app_assoc. reflexivity.
  - intros resp Hr Hp. unfold iteration, parse. cbv beta delta [bind].
    rewrite yield_mk. run_prims. rewrite yield_mk. run_prims. rewrite yield_mk. run_prims.
    rewrite Hr. run_prims. rewrite yield_mk. run_prims. rewrite Hp. run_prims.
    eexists. split; [reflexivity|]. cbn [sess data f].
    split; [|split; reflexivity].
    apply events_since_app. cbn [trace]. rewrite <- !app_assoc. reflexivity.
  - intros resp r x Hr Hp HT. unfold iteration, parse. cbv beta delta [bind].
    rewrite yield_mk. run_prims. rewrite yield_mk. run_prims. rewrite yield_mk. run_prims.
    rewrite Hr. run_prims. rewrite yield_mk. run_prims. rewrite Hp. run_prims.
    rewrite yield_mk. run_prims. rewrite HT. run_prims.
    eexists. split; [reflexivity|]. cbn [sess data f].
    split; [|split; reflexivity].
    apply events_since_app. cbn [trace]. rewrite <- !app_assoc. reflexivity.
Qed.

(** ** The commands of a run *)

Lemma smu_writes_app (a b : list event) :
  smu_writes (a ++ b) = (smu_writes a ++ smu_writes b)%list.
Proof. apply flat_map_app. Qed.

Lemma early_writes (evs : list event) :
  forallb is_early evs = true -> exists j, smu_writes evs = repeat measure_cmd j.
Proof.
  induction evs as [|ev evs IH]; cbn [forallb]; intros H.
  - exists O. reflexivity.
  - apply andb_prop in H. destruct H as [H1 H2]. destruct (IH H2) as [j Hj].
    destruct ev; try discriminate; try (exists j; exact Hj).
    cbn [is_early] in H1. apply String.eqb_eq in H1. subst cmd.
    exists (S j). cbn [smu_writes flat_map app repeat]. f_equal. exact Hj.
Qed.

Lemma plot_writes (evs : list event) :
  forallb is_plot_event evs = true -> smu_writes evs = [].
Proof.
  induction evs as [|ev evs IH]; cbn [forallb]; intros H; [reflexivity|].
  apply andb_prop in H. destruct H as [H1 H2].
  destruct ev; try discriminate; cbn [smu_writes flat_map app]; apply IH; exact H2.
Qed.

Lemma tail_writes (e : IterEnv) (w : world) (o : outcome unit) (tl : list event) :
  plot_tail e w o tl -> smu_writes tl = [].
Proof.
  unfold plot_tail. destruct (f (sess w)).
  - intros (pevs & -> & Hp & _). cbn [smu_writes flat_map app]. apply plot_writes, Hp.
  - intros [-> _]. reflexivity.
Qed.

Lemma late_writes (e : IterEnv) (w : world) (o : outcome unit) (resp line : string)
  (r T : float) (tl : list event) :
  plot_tail e w o tl ->
  smu_writes (head_events e resp r T ++ file_events (file (sess w)) line ++ tl)
  = [measure_cmd].
Proof.
  intros Hp. rewrite !smu_writes_app, (tail_writes _ _ _ _ Hp).
  unfold file_events. destruct (truthy _); reflexivity.
Qed.

(** The loop sends nothing but the measurement query, once per iteration
    that completes. *)
Lemma loop_post_writes start envs w o evs :
  loop_post float_strip start envs w o evs ->
  exists k,
    smu_writes evs = repeat measure_cmd k /\
    (forall w', o = Ok tt w' ->
       List.length (data (sess w')) = (List.length (data (sess w)) + k)%nat).
Proof.
  induction 1 as [envs w _ | w _ | e envs w x w' evs _ Hi Ht
                 | e envs w w1 o evs1 evs2 _ Hi Ht Hl IH].
  - exists O. split; [reflexivity|]. intros w' Hw. inversion Hw; subst. lia.
  - exists O. split; [reflexivity|]. discriminate.
  - destruct (iter_events _ _ _ _ _ _ Hi Ht)
      as [(x' & w'' & _ & _ & He) | (r & tl & _ & _ & _ & -> & Hp)].
    + destruct (early_writes _ He) as [j Hj]. exists j. split; [exact Hj|discriminate].
    + exists 1%nat. split; [apply (late_writes _ _ _ _ _ _ _ _ Hp)|discriminate].
  - destruct (iter_events _ _ _ _ _ _ Hi Ht)
      as [(x' & w'' & Ho & _) | (r & tl & _ & _ & Hd & -> & Hp)]; [discriminate|].
    destruct IH as (k & Hk & Hn). exists (S k). split.
    + rewrite smu_writes_app, (late_writes _ _ _ _ _ _ _ _ Hp), Hk. reflexivity.
    + intros w' Hw. rewrite (Hn w' Hw). cbn [final] in Hd.
      rewrite Hd, length_app. cbn [List.length]. lia.
Qed.

(** X5. On a connected instrument a run of a session without a log file,
    which opens no file before it addresses the instrument, sends, in this
    order: the ten commands of [setup_device], the output-on command, then
    nothing but the measurement query, and the output-off command only when
    the run returns.  A run that returns has sent the query exactly once per
    sample it recorded. *)
Theorem X5_command_sequence (env : RunEnv) (w : world) :
  smu (sess w) <> None ->
  truthy (file (sess w)) = false ->
  exists k,
    smu_writes (events_since w (final (run float_strip env w))) =
      (setup_cmds ++ output_on_cmd :: repeat measure_cmd k
         ++ match run float_strip env w with
            | Ok _ _ => [output_off_cmd]
            | _ => []
            end)%list /\
    (forall w', run float_strip env w = Ok tt w' ->
       List.length (data (sess w')) = (List.length (data (sess w)) + k)%nat).
Proof.
  intros Hsmu _.
  destruct (run_sound float_strip env w) as (evs & Hr & Ht).
  rewrite (events_since_app _ _ _ Ht).
  assert (Hpro : smu_writes (prologue_events env (file (sess w))) =
                 (setup_cmds ++ [output_on_cmd])%list)
    by (unfold prologue_events, open_events; destruct (truthy _); reflexivity).
  remember (run float_strip env w) as o eqn:Eo. clear Eo.
  destruct Hr as [ w'' Hnone Hd Htr | w1 w2 w3 evs' Hsome Hd Hf Hl Hs Hw
                 | w1 o evs' Hsome Hd Hf Hl Hn]; cbn [final] in *.
  - contradiction.
  - destruct (loop_post_writes _ _ _ _ _ Hl) as (k & Hk & Hlen).
    exists k. split.
    + rewrite !smu_writes_app, Hpro, Hk, <- app_assoc.
      unfold epilogue_events, close_events.
      destruct (truthy _); reflexivity.
    + intros w' Hw'. inversion Hw'; subst w'.
      rewrite Hs, (Hlen w2 eq_refl), Hd. reflexivity.
  - destruct (loop_post_writes _ _ _ _ _ Hl) as (k & Hk & Hlen).
    exists k. split.
    + rewrite !smu_writes_app, Hpro, Hk, <- app_assoc.
      destruct o as [[] w2 | x w2 | w2];
        [exfalso; eapply Hn; reflexivity | rewrite app_nil_r; reflexivity
        | rewrite app_nil_r; reflexivity ].
    + intros w' Hw'. exfalso. eapply Hn. exact Hw'.
Qed.

(** ** The log file of a run *)

Lemma filter_none {A} (p : A -> bool) (l : list A) :
  filter p l = [] -> existsb p l = false.
Proof.
  induction l as [|a l IH]; cbn [filter existsb]; [reflexivity|].
  destruct (p a); [discriminate|]. exact IH.
Qed.

Lemma loop_file_events (evs : list event) :
  forallb is_loop_event evs = true ->
  filter is_file_event evs = map EvFileWrite (file_writes evs).
Proof.
  induction evs as [|ev evs IH]; cbn [forallb]; intros H; [reflexivity|].
  apply andb_prop in H. destruct H as [H1 H2]. specialize (IH H2).
  destruct ev; try discriminate; cbn [filter is_file_event file_writes flat_map app map];
    rewrite ?IH; reflexivity.
Qed.

(** X6. A session without a file name performs no file operation at all
    during a run.  With a file name, a run that returns has opened the file
    once, before anything was written, and closed it once, after the last
    write. *)
Theorem X6_file_operations (env : RunEnv) (w : world) :
  (truthy (file (sess w)) = false ->
   existsb is_file_event (events_since w (final (run float_strip env w))) = false) /\
  (truthy (file (sess w)) = true ->
   forall w', run float_strip env w = Ok tt w' ->
     filter is_file_event (events_since w w') =
       (EvFileOpen (file (sess w))
          :: map EvFileWrite (file_writes (events_since w w')) ++ [EvFileClose])%list).
Proof.
  destruct (run_sound float_strip env w) as (evs & Hr & Ht).
  remember (run float_strip env w) as o eqn:Eo. clear Eo.
  split; intros Hfile.
  - rewrite (events_since_app _ _ _ Ht). apply filter_none.
    destruct Hr as [ w'' Hnone Hd Htr | w1 w2 w3 evs' Hsome Hd Hf Hl Hs Hw
                   | w1 o evs' Hsome Hd Hf Hl Hn].
    + unfold open_events. rewrite Hfile. reflexivity.
    + pose proof (loop_post_frame _ _ _ _ _ _ Hl) as (_ & _ & _ & He).
      destruct (loop_post_readings _ _ _ _ _ _ Hl) as (k & _ & Hfw).
      rewrite Hf, Hfile in Hfw.
      rewrite !filter_app, (loop_file_events _ He), Hfw.
      unfold prologue_events, open_events, epilogue_events, close_events.
      rewrite Hfile. reflexivity.
    + pose proof (loop_post_frame _ _ _ _ _ _ Hl) as (_ & _ & _ & He).
      destruct (loop_post_readings _ _ _ _ _ _ Hl) as (k & _ & Hfw).
      rewrite Hf, Hfile in Hfw.
      rewrite !filter_app, (loop_file_events _ He), Hfw.
      unfold prologue_events, open_events. rewrite Hfile. reflexivity.
  - intros w' Ho. subst o. cbn [final] in Ht. rewrite (events_since_app _ _ _ Ht).
    inversion Hr as [ | w1 w2 w3 evs' Hsome Hd Hf Hl Hs Hw | w1 o evs' Hsome Hd Hf Hl Hn];
      subst; [|exfalso; eapply Hn; reflexivity].
    pose proof (loop_post_frame _ _ _ _ _ _ Hl) as (_ & _ & _ & He).
    rewrite !filter_app, !file_writes_app, (loop_file_events _ He).
    unfold prologue_events, open_events, epilogue_events, close_events.
    rewrite Hfile. cbn. rewrite app_nil_r. reflexivity.
Qed.

(** ** Stopping and destroying *)

(** X7. [run] sets the running flag itself when it starts, so a [finish()]
    that comes before the run has begun is without effect: the run goes
    exactly as if it had not been called. *)
Theorem X7_finish_before_run_is_lost (env : RunEnv) (w : world) :
  (finish ;; run float_strip env) w = run float_strip env w.
Proof.
  destruct w as [[fl pf dt al [d|]] wn tr];
    unfold finish, bind at 1; run_prims; rewrite !run_unfold.
  - rewrite !prologue_some. reflexivity.
  - rewrite !prologue_none. reflexivity.
Qed.

Lemma run_keeps_smu (env : RunEnv) (w : world) :
  smu (sess (final (run float_strip env w))) = smu (sess w).
Proof.
  rewrite run_unfold. destruct w as [[fl pf dt al [d|]] wn tr].
  - rewrite prologue_some.
    match goal with |- context [loop _ _ _ ?w1] => set (w1' := w1) end.
    destruct (loop_sound float_strip (start_timer env) (iters env) w1') as [evs Hl].
    pose proof (loop_post_frame _ _ _ _ _ _ Hl) as (_ & Hs & _ & _).
    destruct (loop float_strip (start_timer env) (iters env) w1') as [[] w2 | x w2 | w2];
      cbn [final] in *; try exact Hs.
    destruct w2 as [[fl2 pf2 dt2 al2 sm2] wn2 tr2]. cbn [sess smu] in Hs. subst sm2.
    unfold w1'. cbn [sess smu]. rewrite epilogue_some. reflexivity.
  - rewrite prologue_none. reflexivity.
Qed.

(** X8. However a run on a connected instrument ended, destroying the
    session afterwards sends the six commands of [reset_device], the last of
    which switches the output off, and then closes the handle. *)
Theorem X8_destructor_switches_off (env : RunEnv) (w : world) :
  smu (sess w) <> None ->
  exists w',
    Session_del (final (run float_strip env w)) = Ok tt w' /\
    events_since (final (run float_strip env w)) w' =
      (map EvSmuWrite reset_cmds ++ [EvSmuClose])%list.
Proof.
  intros Hsmu. pose proof (run_keeps_smu env w) as Hk.
  destruct (final (run float_strip env w)) as [[fl pf dt al sm] wn tr].
  cbn [sess smu] in Hk. subst sm. destruct (smu (sess w)) as [d|]; [|contradiction].
  unfold Session_del, reset_device. run_prims.
  eexists. split; [reflexivity|].
  apply events_since_app. cbn [trace]. rewrite <- !app_assoc. reflexivity.
Qed.

(** ** The plot and the samples *)

(** What an iteration does to the samples and to the plot together. *)
Lemma iteration_plot (start : float) (e : IterEnv) (w : world) (p : PlotWindow) :
  f (sess w) = Some p ->
  (data (sess (final (iteration float_strip start e w))) = data (sess w) /\
   f (sess (final (iteration float_strip start e w))) = Some p) \/
  (exists T,
     data (sess (final (iteration float_strip start e w))) =
       (data (sess w) ++ [(now e, T)])%list /\
     ((visible e = true /\
       exists p',
         f (sess (final (iteration float_strip start e w))) = Some p' /\
         lines_x p' = (lines_x p ++ [now e])%list /\
         lines_y p' = (lines_y p ++ [T])%list) \/
      (visible e = false /\
       f (sess (final (iteration float_strip start e w))) = Some p /\
       forall w1, iteration float_strip start e w = Ok tt w1 -> alive (sess w1) = false))).
Proof.
  destruct w as [[fl pf dt al sm] wn tr]. cbn [sess f data]. intros ->.
  unfold iteration, parse.
  cbv beta delta [bind]. rewrite yield_mk. run_prims.
  rewrite yield_mk. run_prims.
  destruct sm as [d|]; [|left; split; reflexivity].
  run_prims. rewrite yield_mk. run_prims.
  destruct (response e) as [resp|]; [|left; split; reflexivity].
  run_prims. rewrite yield_mk. run_prims.
  destruct (float_strip resp) as [r|]; run_prims; [|left; split; reflexivity].
  rewrite yield_mk. run_prims.
  destruct (temperature r) as [ex|T]; run_prims; [left; split; reflexivity|].
  rewrite yield_mk. run_prims. rewrite yield_mk. run_prims. rewrite yield_mk.
  run_prims.
  right. exists T.
  destruct (truthy fl); run_prims; rewrite yield_mk; run_prims;
    rewrite yield_mk; run_prims.
  all: match goal with
       | |- context [update_plot ?x ?y ?v ?w0] =>
           destruct v eqn:Ev;
           [ destruct (update_plot_open x y w0 p eq_refl) as (p' & Hf' & Hx & Hy & _);
             destruct (update_plot_post x y true w0 p eq_refl) as [pevs Hp];
             pose proof (pp_data _ _ _ _ Hp) as Hd;
             destruct (update_plot x y true w0) as [z w'|x' w'|w'];
             cbn [final sess data f] in *;
             (split; [exact Hd | left; split; [reflexivity | exists p'; auto]])
           | destruct (update_plot_closed x y w0 p eq_refl)
               as (w' & Hu & Hf' & Ha & Hd & _);
             rewrite Hu; cbn [final sess data f] in *;
             (split; [exact Hd | right; split; [reflexivity | split; [exact Hf'|]]]);
             intros w1 Hw1; inversion Hw1; subst; exact Ha ]
       end.
Qed.

(** X9. The plot shows the samples of the session: when its two series
    hold the timestamps and the temperatures of the recorded samples before
    a run, they still do after it, however the run ended, except that the
    sample taken when the window was found closed is recorded without being
    plotted. *)
Theorem X9_plot_mirrors_samples (env : RunEnv) (w : world) :
  f (sess w) <> None ->
  plotted w = recorded w ->
  plotted (final (run float_strip env w)) = recorded (final (run float_strip env w)) \/
  exists s,
    recorded (final (run float_strip env w)) =
      ((fst (plotted (final (run float_strip env w))) ++ [fst s])%list,
       (snd (plotted (final (run float_strip env w))) ++ [snd s])%list).
Proof.
  intros Hf Hm.
  assert (Hloop : forall envs w0,
            f (sess w0) <> None -> plotted w0 = recorded w0 ->
            let o := loop float_strip (start_timer env) envs w0 in
            f (sess (final o)) <> None /\
            (plotted (final o) = recorded (final o) \/
             exists s,
               recorded (final o) =
                 ((fst (plotted (final o)) ++ [fst s])%list,
                  (snd (plotted (final o)) ++ [snd s])%list))).
  { induction envs as [|e envs IH]; intros w0 Hf0 Hm0; cbn [loop].
    - destruct (alive (sess w0)); cbn [final]; auto.
    - destruct (alive (sess w0)) eqn:Ea; cbn [final]; [|auto].
      unfold bind.
      destruct (f (sess w0)) as [p|] eqn:Ef; [clear Hf0|contradiction].
      pose proof (iteration_plot (start_timer env) e w0 p Ef) as Hi.
      assert (Hm0' : lines_x p = map fst (data (sess w0)) /\
                     lines_y p = map snd (data (sess w0)))
        by (unfold plotted, recorded in Hm0; rewrite Ef in Hm0; inversion Hm0; auto).
      destruct Hm0' as [Hx0 Hy0].
      destruct (iteration float_strip (start_timer env) e w0) as [[] w1 | x w1 | w1];
        cbn [final] in Hi |- *;
        destruct Hi as [[Hd Hf1] | (T & Hd & [(Hv & p' & Hf1 & Hx & Hy) | (Hv & Hf1 & Ha)])].
      + apply IH; [congruence|].
        unfold plotted, recorded. rewrite Hf1, Hd. congruence.
      + apply IH; [congruence|].
        unfold plotted, recorded. rewrite Hf1, Hd, !map_app, Hx, Hy. cbn [map fst snd].
        congruence.
      + specialize (Ha w1 eq_refl).
        assert (Hl : loop float_strip (start_timer env) envs w1 = Ok tt w1)
          by (destruct envs; cbn [loop]; rewrite Ha; reflexivity).
        rewrite Hl. cbn [final]. split; [congruence|]. right. exists (now e, T).
        unfold plotted, recorded. rewrite Hf1, Hd, !map_app. cbn [map fst snd].
        congruence.
      + split; [congruence|]. left. unfold plotted, recorded. rewrite Hf1, Hd. congruence.
      + split; [congruence|]. left.
        unfold plotted, recorded. rewrite Hf1, Hd, !map_app, Hx, Hy. cbn [map fst snd].
        congruence.
      + split; [congruence|]. right. exists (now e, T).
        unfold plotted, recorded. rewrite Hf1, Hd, !map_app. cbn [map fst snd].
        congruence.
      + split; [congruence|]. left. unfold plotted, recorded. rewrite Hf1, Hd. congruence.
      + split; [congruence|]. left.
        unfold plotted, recorded. rewrite Hf1, Hd, !map_app, Hx, Hy. cbn [map fst snd].
        congruence.
      + split; [congruence|]. right. exists (now e, T).
        unfold plotted, recorded. rewrite Hf1, Hd, !map_app. cbn [map fst snd].
        congruence. }
  rewrite run_unfold. destruct w as [[fl pf dt al [d|]] wn tr].
  - rewrite prologue_some.
    match goal with |- context [loop _ _ _ ?w1] => set (w1' := w1) end.
    destruct (Hloop (iters env) w1') as [Hf2 Hm2]; [exact Hf | exact Hm |].
    cbn zeta in Hf2, Hm2.
    destruct (loop_sound float_strip (start_timer env) (iters env) w1') as [evs Hl].
    pose proof (loop_post_frame _ _ _ _ _ _ Hl) as (_ & Hsm & _ & _). clear Hl.
    destruct (loop float_strip (start_timer env) (iters env) w1') as [[] w2 | x w2 | w2];
      cbn [final] in *; try exact Hm2.
    destruct w2 as [[fl2 pf2 dt2 al2 sm2] wn2 tr2].
    unfold w1' in Hsm. cbn [sess smu] in Hsm. subst sm2.
    rewrite epilogue_some. cbn [final]. exact Hm2.
  - rewrite prologue_none. cbn [final]. left. exact Hm.
Qed.

End MoreRunFacts.

(** ** Creating a session *)

(** X10. With at least one instrument listed, creating a session opens the
    first one, resets it with [reset_device], whose last command switches
    the output off, and only then has the main window create and show the
    plot window; the new session has no samples, that plot window, still
    empty, and its running flag set. *)
Theorem X10_session_created (name d : string) (rest : list string) (w : world) :
  exists w',
    Session_init name (d :: rest) w = Ok tt w' /\
    sess w' = mkSession name (Some PlotWindow_init) [] true (Some d) /\
    events_since w w' =
      (EvPrintDevices (d :: rest) :: EvOpenResource d
         :: EvPrint ("Connected to " ++ d ++ nl)
         :: map EvSmuWrite reset_cmds ++ [EvShowPlot])%list.
Proof.
  destruct w as [[fl pf dt al sm] wn tr].
  unfold Session_init, connect_to_device, reset_device, prepare_plot.
  run_prims. cbn [nth_error nth]. run_prims.
  eexists. split; [reflexivity|]. cbn [sess win]. split; [reflexivity|].
  apply events_since_app. cbn [trace]. rewrite <- !app_assoc. reflexivity.
Qed.

(** ** Starting from the main window *)

Lemma list_ascii_app (s t : string) :
  list_ascii_of_string (s ++ t) = (list_ascii_of_string s ++ list_ascii_of_string t)%list.
Proof.
  induction s as [|a s IH]; cbn; [reflexivity|]. rewrite IH. reflexivity.
Qed.

Lemma rev_prefix_app (p q : list ascii) : rev_prefix p (p ++ q) = true.
Proof.
  induction p as [|a p IH]; cbn [rev_prefix app]; [reflexivity|].
  rewrite Ascii.eqb_refl. exact IH.
Qed.

Lemma endswith_append (s suffix : string) : endswith (s ++ suffix) suffix = true.
Proof.
  unfold endswith. rewrite list_ascii_app, rev_app_distr. apply rev_prefix_app.
Qed.

Lemma truthy_append (s t : string) : truthy t = true -> truthy (s ++ t) = true.
Proof.
  destruct s as [|a s]; cbn; [auto|reflexivity].
Qed.

(** X11. The file name given to a session always ends in [.dat]: the rule
    of [startmiu] and of the file dialog adds the suffix once and adding it
    again changes nothing, so a name that went through the dialog is passed
    on by [startmiu] as it is; a cancelled dialog leaves the field alone. *)
Theorem X11_file_name_suffix (name text : string) :
  endswith (with_dat name) ".dat" = true /\
  with_dat (with_dat name) = with_dat name /\
  truthy (with_dat name) = true /\
  (truthy name = true -> with_dat (Filedlg name text) = Filedlg name text) /\
  Filedlg "" text = text.
Proof.
  assert (H1 : endswith (with_dat name) ".dat" = true).
  { unfold with_dat. destruct (endswith name ".dat") eqn:E; [exact E|].
    apply endswith_append. }
  assert (H2 : with_dat (with_dat name) = with_dat name)
    by (unfold with_dat at 1; rewrite H1; reflexivity).
  split; [exact H1|]. split; [exact H2|]. split; [|split].
  - unfold with_dat. destruct (endswith name ".dat") eqn:E.
    + destruct name; [discriminate|reflexivity].
    + apply truthy_append. reflexivity.
  - intros Hn. unfold Filedlg. rewrite Hn. exact H2.
  - reflexivity.
Qed.

(** X12. Whenever the file field is not empty, [startmiu] asks whether to
    overwrite, without looking whether the file exists.  When the answer is
    no, nothing else happens: no instrument is looked for, no session is
    created, no thread is started, and the window is put back to idle with
    an empty status message. *)
Theorem X12_declined_overwrite (text : string) (devs : list string) (w : world) :
  truthy text = true ->
  exists w',
    startmiu (mkStartEnv text false devs) w = Ok tt w' /\
    sess w' = sess w /\
    messung (win w') = messung (win w) /\
    Button_start (win w') = true /\
    Button_end (win w') = true /\
    statusBar (win w') = "" /\
    events_since w w' =
      [EvFinished false "Running..."; EvQuestion false; EvFinished true ""].
Proof.
  intros Ht. destruct w as [[fl pf dt al sm] [ms au bs be sb] tr].
  unfold startmiu. run_prims. cbn [file_text overwrite list_resources].
  rewrite Ht. run_prims. cbn [negb]. run_prims.
  eexists. split; [reflexivity|]. cbn [sess win messung Button_start Button_end statusBar].
  repeat split.
  apply events_since_app. cbn [trace]. rewrite <- !app_assoc. reflexivity.
Qed.

(** X13. With an instrument on the bus and no refusal to overwrite,
    [startmiu] creates the session and starts its thread as its last action:
    the session gets the file name with the suffix [.dat] (or no file when
    the field is empty), the window holds the session, its two buttons are
    disabled and its status reads [Running...]. *)
Theorem X13_started (text d : string) (yes : bool) (rest : list string) (w : world) :
  truthy text = false \/ yes = true ->
  exists w',
    startmiu (mkStartEnv text yes (d :: rest)) w = Ok tt w' /\
    sess w' =
      mkSession (if truthy text then with_dat text else text)
        (Some PlotWindow_init) [] true (Some d) /\
    win w' = mkMainWindow true (Some true) false false "Running..." /\
    last (events_since w w') EvShowPlot = EvThreadStart /\
    filter is_thread_start (events_since w w') = [EvThreadStart].
Proof.
  intros Hattempt. destruct w as [[fl pf dt al sm] [ms au bs be sb] tr].
  unfold startmiu, new_Session, Session_init, connect_to_device, reset_device,
    prepare_plot, set_aus, with_dat.
  run_prims. cbn [file_text overwrite list_resources].
  destruct (truthy text) eqn:Et.
  - destruct Hattempt as [ Hf | -> ]; [discriminate|].
    run_prims. cbn [nth_error nth]. run_prims. cbn [negb]. run_prims.
    eexists. split; [reflexivity|]. cbn [sess win].
    split; [reflexivity|]. split; [reflexivity|].
    erewrite events_since_app
      by (cbn [trace]; rewrite <- !app_assoc; cbn [app]; reflexivity).
    split; reflexivity.
  - destruct yes; run_prims; cbn [nth_error nth]; run_prims; cbn [negb]; run_prims.
    all: eexists; (split; [reflexivity|]); cbn [sess win];
      (split; [reflexivity|]); (split; [reflexivity|]);
      erewrite events_since_app
        by (cbn [trace]; rewrite <- !app_assoc; cbn [app]; reflexivity);
      split; reflexivity.
Qed.

(** ** The rows of the log file *)

Lemma count_char_app (c : ascii) (s t : string) :
  count_char c (s ++ t) = (count_char c s + count_char c t)%nat.
Proof.
  induction s as [|a s IH]; cbn [append count_char]; [reflexivity|].
  rewrite IH. lia.
Qed.

Lemma string_app_assoc (s t u : string) : ((s ++ t) ++ u = s ++ (t ++ u))%string.
Proof.
  induction s as [|a s IH]; cbn [append]; [reflexivity|]. rewrite IH. reflexivity.
Qed.

Lemma string_length_app (s t : string) :
  String.length (s ++ t) = (String.length s + String.length t)%nat.
Proof.
  induction s as [|a s IH]; cbn [append String.length]; [reflexivity|].
  rewrite IH. reflexivity.
Qed.

(** A decimal digit is neither a tab nor a newline. *)
Lemma digit_char_plain (d : Z) (c : ascii) :
  (nat_of_ascii c < 48)%nat -> Ascii.eqb (digit_char d) c = false.
Proof.
  intros Hc. apply Ascii.eqb_neq. intros Heq.
  assert (Hn : nat_of_ascii (digit_char d) = (48 + Z.to_nat (d mod 10))%nat).
  { unfold digit_char. apply nat_ascii_embedding.
    pose proof (Z.mod_pos_bound d 10 ltac:(lia)). lia. }
  rewrite Heq in Hn. lia.
Qed.

Lemma digits_fixed_plain (c : ascii) (k : nat) : forall n,
  (nat_of_ascii c < 48)%nat -> count_char c (digits_fixed k n) = O.
Proof.
  induction k as [|k IH]; intros n Hc; cbn [digits_fixed]; [reflexivity|].
  rewrite count_char_app, IH by assumption. cbn [count_char].
  rewrite (digit_char_plain n c Hc). reflexivity.
Qed.

Lemma digits_fixed_length (k : nat) : forall n, String.length (digits_fixed k n) = k.
Proof.
  induction k as [|k IH]; intros n; cbn [digits_fixed]; [reflexivity|].
  rewrite string_length_app, IH. cbn [String.length]. lia.
Qed.

Lemma string_of_uint_plain (c : ascii) (d : Decimal.uint) :
  (nat_of_ascii c < 48)%nat -> count_char c (string_of_uint d) = O.
Proof.
  intros Hc.
  assert (Hdigit : forall a, (48 <= nat_of_ascii a)%nat -> Ascii.eqb a c = false).
  { intros a Ha. apply Ascii.eqb_neq. intros ->. lia. }
  induction d as [|d IH|d IH|d IH|d IH|d IH|d IH|d IH|d IH|d IH|d IH];
    cbn [string_of_uint count_char]; [reflexivity|..];
    rewrite Hdigit, IH by (cbn; lia); reflexivity.
Qed.

Lemma format_f_plain (c : ascii) (prec : nat) (x : float) :
  (nat_of_ascii c < 45)%nat -> count_char c (PyFloat.format_f prec x) = O.
Proof.
  intros Hc.
  assert (Hc48 : (nat_of_ascii c < 48)%nat) by lia.
  assert (Hlit : forall a, (45 <= nat_of_ascii a)%nat -> Ascii.eqb a c = false).
  { intros a Ha. apply Ascii.eqb_neq. intros ->. lia. }
  assert (Hfix : forall q, count_char c (PyFloat.fixed_point prec q) = O).
  { intros q. unfold PyFloat.fixed_point, decimal.
    rewrite count_char_app, string_of_uint_plain by assumption.
    destruct prec as [|prec]; [reflexivity|].
    rewrite count_char_app, digits_fixed_plain by assumption.
    cbn [count_char]. rewrite Hlit by (cbn; lia). reflexivity. }
  unfold PyFloat.format_f.
  destruct (Prim2SF x) as [s | s | | s m e].
  - rewrite count_char_app, Hfix. destruct s; cbn [count_char]; [|reflexivity].
    rewrite Hlit by (cbn; lia). reflexivity.
  - destruct s; cbn [count_char]; rewrite !Hlit by (cbn; lia); reflexivity.
  - cbn [count_char]; rewrite !Hlit by (cbn; lia); reflexivity.
  - rewrite count_char_app, Hfix. destruct s; cbn [count_char]; [|reflexivity].
    rewrite Hlit by (cbn; lia). reflexivity.
Qed.

Lemma strftime_plain (c : ascii) (dt : datetime) :
  (nat_of_ascii c < 45)%nat -> count_char c (strftime_HMSf dt) = O.
Proof.
  intros Hc.
  assert (Hc48 : (nat_of_ascii c < 48)%nat) by lia.
  assert (Hlit : forall a, (45 <= nat_of_ascii a)%nat -> Ascii.eqb a c = false).
  { intros a Ha. apply Ascii.eqb_neq. intros ->. lia. }
  unfold strftime_HMSf.
  rewrite !count_char_app, !digits_fixed_plain by assumption.
  cbn [count_char]. rewrite !Hlit by (cbn; lia). reflexivity.
Qed.

(** X14. Every data row of the log file has exactly four tab-separated
    fields, as the line of column titles has, and ends with its only
    newline: no timestamp and no formatted number ever contains a tab or a
    newline, whatever the values (infinities and NaN included).  The
    timestamp field is always 15 characters wide. *)
Theorem X14_rows_are_tab_separated (date : datetime) (t resistance T : float) :
  count_char "009" (row date t resistance T) = 3%nat /\
  count_char "009" header = 3%nat /\
  (exists body,
     row date t resistance T = body ++ nl /\ count_char "010" body = O) /\
  String.length (strftime_HMSf date) = 15%nat.
Proof.
  assert (Htab : (nat_of_ascii "009" < 45)%nat) by (cbn; lia).
  assert (Hnl : (nat_of_ascii "010" < 45)%nat) by (cbn; lia).
  split; [|split; [reflexivity|split]].
  - unfold row. rewrite !count_char_app, !format_f_plain, strftime_plain by assumption.
    reflexivity.
  - exists (strftime_HMSf date ++ tab ++ PyFloat.format_f 3 t ++ tab ++
            PyFloat.format_f 3 resistance ++ tab ++ PyFloat.format_f 3 T).
    split.
    + unfold row. rewrite !string_app_assoc. reflexivity.
    + rewrite !count_char_app, !format_f_plain, strftime_plain by assumption.
      reflexivity.
  - unfold strftime_HMSf. rewrite !string_length_app, !digits_fixed_length. reflexivity.
Qed.

(** ** How a run comes to return *)

Section Returning.
Variable float_strip : string -> option float.

Lemma loop_post_ok_cause start envs w w' evs :
  loop_post float_strip start envs w (Ok tt w') evs ->
  alive (sess w) = true ->
  exists e, In e envs /\ (visible e = false \/ stopped e = true).
Proof.
  intros H. remember (Ok tt w') as o eqn:Eo. revert Eo.
  induction H as [envs w Ha | w _ | e envs w x w1 evs _ Hi Ht
                 | e envs w w1 o evs1 evs2 Ha Hi Ht Hl IH]; intros Eo Hal.
  - congruence.
  - discriminate.
  - discriminate.
  - destruct (alive (sess w1)) eqn:Ea1.
    + destruct (IH Eo eq_refl) as (e' & Hin & Hc). exists e'. split; [right; exact Hin|exact Hc].
    + exists e. split; [left; reflexivity|].
      inversion Hi; subst.
      match goal with Hp : plot_tail _ _ _ _ |- _ => unfold plot_tail in Hp; rename Hp into Hp' end.
      destruct (f (sess w)).
      * destruct Hp' as (pevs & _ & _ & _ & Hal').
        rewrite Ea1, Hal in Hal'. cbn [andb] in Hal'.
        destruct (stopped e); [right; reflexivity|].
        destruct (visible e); [discriminate|left; reflexivity].
      * destruct Hp' as [_ [w'' Hw'']]. discriminate.
Qed.

(** X15. A run returns only when [finish()] took effect before the loop
    was entered, or when, in one of its iterations, the plot window was found
    closed or [finish()] took effect.  In the first case the run returns
    without an iteration: it records no sample, and what it does is the
    prologue followed at once by the epilogue.  Whichever the cause, the run
    enables the two buttons again and sets the status message
    [Closed plotting window]. *)
Theorem X15_why_a_run_returns (env : RunEnv) (w w' : world) :
  run float_strip env w = Ok tt w' ->
  (stop_before_loop env = true \/
   exists e, In e (iters env) /\ (visible e = false \/ stopped e = true)) /\
  (stop_before_loop env = true ->
   data (sess w') = data (sess w) /\
   events_since w w' =
     (prologue_events env (file (sess w)) ++ epilogue_events (file (sess w)))%list) /\
  win w' = mkMainWindow (messung (win w)) (aus (win w)) true true status_closed.
Proof.
  rewrite run_unfold. destruct w as [[fl pf dt al [d|]] wn tr].
  - rewrite prologue_some.
    destruct (stop_before_loop env) eqn:Esb; cbn [negb].
    { replace (loop float_strip (start_timer env) (iters env)
                 (mkworld (mkSession fl pf dt false (Some d)) wn
                    (tr ++ prologue_events env fl)))
        with (Ok tt (mkworld (mkSession fl pf dt false (Some d)) wn
                       (tr ++ prologue_events env fl)))
        by (destruct (iters env); reflexivity).
      rewrite epilogue_some. intros Ho. inversion Ho; subst w'.
      split; [left; reflexivity|]. split; [|reflexivity].
      intros _. split; [reflexivity|].
      apply events_since_app. cbn [trace sess file]. rewrite <- app_assoc. reflexivity. }
    match goal with |- context [loop _ _ _ ?w1] => set (w1' := w1) end.
    destruct (loop_sound float_strip (start_timer env) (iters env) w1') as [evs Hl].
    pose proof (loop_post_frame _ _ _ _ _ _ Hl) as (_ & Hs & Hw & _).
    destruct (loop float_strip (start_timer env) (iters env) w1') as [[] w2 | x w2 | w2];
      [|discriminate|discriminate].
    cbn [final] in Hs, Hw. unfold w1' in Hs, Hw. cbn [sess smu win] in Hs, Hw.
    destruct w2 as [[fl2 pf2 dt2 al2 sm2] wn2 tr2]. cbn [sess smu win] in Hs, Hw.
    subst sm2 wn2. rewrite epilogue_some. intros Ho. inversion Ho; subst w'.
    split; [|split; [discriminate|reflexivity]].
    right. apply (loop_post_ok_cause _ _ _ _ _ Hl). reflexivity.
  - rewrite prologue_none. discriminate.
Qed.

End Returning.

(** ** Further concrete runs *)

Section MoreConcrete.
Import Examples MoreExamples.

Lemma X1_update_plot_appends_point_witness :
  (exists p',
     f (sess (final (update_plot one_o_clock 20 true started))) = Some p' /\
     lines_x p' = (lines_x PlotWindow_init ++ [one_o_clock])%list /\
     lines_y p' = (lines_y PlotWindow_init ++ [20%float])%list) /\
  (exists w',
     update_plot one_o_clock 20 false started = Ok (-1) w' /\
     f (sess w') = Some PlotWindow_init /\
     alive (sess w') = false /\
     data (sess w') = data (sess started) /\
     events_since started w' = [EvIsVisible false]).
Proof.
  assert (Hf : f (sess started) = Some PlotWindow_init) by (vm_compute; reflexivity).
  exact (X1_update_plot_appends_point one_o_clock 20 started PlotWindow_init Hf).
Defined.

Lemma X2_xlim_window_witness :
  exists p',
    f (sess (final (update_plot one_o_clock 20 true (after three_samples)))) = Some p' /\
    exists lo hi,
      xlim p' = Some (lo, hi) /\
      to_us lo = to_us one_o_clock - 3780000000 /\
      to_us hi = to_us one_o_clock + 180000000.
Proof.
  assert (Hf : f (sess (after three_samples)) = Some (plot_of (after three_samples)))
    by (vm_compute; reflexivity).
  destruct (X2_xlim_window one_o_clock 20 (after three_samples) _ Hf)
    as (p' & H1 & _ & Hgt).
  exists p'. split; [exact H1|]. apply Hgt. vm_compute. reflexivity.
Defined.

Lemma X3_zero_seconds_raises_witness :
  exists w',
    update_plot (now (ramp_iter 0)) 20 true (after (ramp 50)) = Raise ZeroDivisionError w' /\
    existsb (fun ev => match ev with EvDraw => true | _ => false end)
      (events_since (after (ramp 50)) w') = false /\
    existsb is_heating_text (events_since (after (ramp 50)) w') = false /\
    alive (sess w') = alive (sess (after (ramp 50))).
Proof.
  assert (Hf : f (sess (after (ramp 50))) = Some (plot_of (after (ramp 50))))
    by (vm_compute; reflexivity).
  assert (Hlen : List.length (lines_y (plot_of (after (ramp 50)))) =
                 List.length (lines_x (plot_of (after (ramp 50)))))
    by (vm_compute; reflexivity).
  assert (Hge : (step <= List.length (lines_x (plot_of (after (ramp 50)))))%nat)
    by (apply Nat.leb_le; vm_compute; reflexivity).
  assert (Hs : seconds (DateTime.sub (now (ramp_iter 0))
                 (nth (List.length (lines_x (plot_of (after (ramp 50)))) - step)
                    (lines_x (plot_of (after (ramp 50)))) (now (ramp_iter 0)))) = 0)
    by (vm_compute; reflexivity).
  exact (X3_zero_seconds_raises (now (ramp_iter 0)) 20 (after (ramp 50)) _ Hf Hlen Hge Hs).
Defined.

Lemma X4_failed_measurement_witness :
  (exists w',
     iteration read_decimal 100 failed_read started = Raise VisaIOError w' /\
     events_since started w' = [EvTimer (timer failed_read); EvSmuWrite measure_cmd] /\
     data (sess w') = data (sess started) /\ f (sess w') = f (sess started)) /\
  (exists w',
     iteration read_decimal 100 (mkIterEnv 100 (Some "ERROR") (noon 0 0) true None) started =
       Raise (ValueError "could not convert string to float") w' /\
     data (sess w') = data (sess started)) /\
  (exists w',
     iteration read_decimal 100 (mkIterEnv 100 (Some "8000") (noon 0 0) true None) started =
       Raise (ValueError "math domain error") w' /\
     data (sess w') = data (sess started)).
Proof.
  assert (Hsmu : smu (sess started) <> None) by (vm_compute; discriminate).
  split; [|split].
  - apply (proj1 (X4_failed_measurement read_decimal 100 failed_read started Hsmu)).
    reflexivity.
  - destruct (proj1 (proj2 (X4_failed_measurement read_decimal 100
                              (mkIterEnv 100 (Some "ERROR") (noon 0 0) true None)
                              started Hsmu)) "ERROR" eq_refl eq_refl)
      as (w' & H1 & _ & H3 & _).
    exists w'. split; [exact H1|exact H3].
  - assert (HT : temperature 8000 = inl (ValueError "math domain error"))
      by (vm_compute; reflexivity).
    assert (Hp : read_decimal "8000" = Some 8000%float) by (vm_compute; reflexivity).
    destruct (proj2 (proj2 (X4_failed_measurement read_decimal 100
                              (mkIterEnv 100 (Some "8000") (noon 0 0) true None)
                              started Hsmu)) "8000" 8000%float _ eq_refl Hp HT)
      as (w' & H1 & _ & H3 & _).
    exists w'. split; [exact H1|exact H3].
Defined.

Lemma X5_command_sequence_witness :
  exists k,
    smu_writes (events_since started_no_file
                  (final (run read_decimal three_samples started_no_file))) =
      (setup_cmds ++ output_on_cmd :: repeat measure_cmd k
         ++ match run read_decimal three_samples started_no_file with
            | Ok _ _ => [output_off_cmd]
            | _ => []
            end)%list /\
    (forall w', run read_decimal three_samples started_no_file = Ok tt w' ->
       List.length (data (sess w')) =
       (List.length (data (sess started_no_file)) + k)%nat).
Proof.
  apply (X5_command_sequence read_decimal three_samples started_no_file).
  - vm_compute. discriminate.
  - vm_compute. reflexivity.
Defined.

Lemma X6_file_operations_witness :
  existsb is_file_event (events_since idle (final (run read_decimal three_samples idle)))
    = false /\
  filter is_file_event (events_since started (after three_samples)) =
    (EvFileOpen (file (sess started))
       :: map EvFileWrite (file_writes (events_since started (after three_samples)))
       ++ [EvFileClose])%list.
Proof.
  split.
  - apply (proj1 (X6_file_operations read_decimal three_samples idle)). reflexivity.
  - apply (proj2 (X6_file_operations read_decimal three_samples started)).
    + reflexivity.
    + vm_compute. reflexivity.
Defined.

Lemma X8_destructor_switches_off_witness :
  exists w',
    Session_del (final (run read_decimal bad_reading started)) = Ok tt w' /\
    events_since (final (run read_decimal bad_reading started)) w' =
      (map EvSmuWrite reset_cmds ++ [EvSmuClose])%list.
Proof.
  apply (X8_destructor_switches_off read_decimal bad_reading started).
  vm_compute. discriminate.
Defined.

Lemma X9_plot_mirrors_samples_witness :
  plotted (final (run read_decimal three_samples started)) =
    recorded (final (run read_decimal three_samples started)) \/
  exists s,
    recorded (final (run read_decimal three_samples started)) =
      ((fst (plotted (final (run read_decimal three_samples started))) ++ [fst s])%list,
       (snd (plotted (final (run read_decimal three_samples started))) ++ [snd s])%list).
Proof.
  apply (X9_plot_mirrors_samples read_decimal three_samples started).
  - vm_compute. discriminate.
  - vm_compute. reflexivity.
Defined.

Lemma X11_file_name_suffix_witness :
  with_dat (Filedlg "run7" "") = Filedlg "run7" "".
Proof.
  apply (proj1 (proj2 (proj2 (proj2 (X11_file_name_suffix "run7" ""))))). reflexivity.
Defined.

Lemma X12_declined_overwrite_witness :
  exists w',
    startmiu (mkStartEnv "log" false ["GPIB0::26::INSTR"]) idle = Ok tt w' /\
    sess w' = sess idle /\
    messung (win w') = messung (win idle) /\
    Button_start (win w') = true /\
    Button_end (win w') = true /\
    statusBar (win w') = "" /\
    events_since idle w' =
      [EvFinished false "Running..."; EvQuestion false; EvFinished true ""].
Proof.
  apply (X12_declined_overwrite "log" ["GPIB0::26::INSTR"] idle). reflexivity.
Defined.

Lemma X13_started_witness :
  exists w',
    startmiu (mkStartEnv "log" true ["GPIB0::26::INSTR"]) idle = Ok tt w' /\
    sess w' =
      mkSession (if truthy "log" then with_dat "log" else "log")
        (Some PlotWindow_init) [] true (Some "GPIB0::26::INSTR") /\
    win w' = mkMainWindow true (Some true) false false "Running..." /\
    last (events_since idle w') EvShowPlot = EvThreadStart /\
    filter is_thread_start (events_since idle w') = [EvThreadStart].
Proof.
  apply (X13_started "log" "GPIB0::26::INSTR" true [] idle). right. reflexivity.
Defined.

Lemma X15_why_a_run_returns_witness :
  ((exists e, In e (iters stopped_run) /\ (visible e = false \/ stopped e = true)) /\
   win (after stopped_run) =
     mkMainWindow (messung (win started)) (aus (win started)) true true status_closed) /\
  (data (sess (after stopped_at_once)) = data (sess started) /\
   events_since started (after stopped_at_once) =
     (prologue_events stopped_at_once (file (sess started))
        ++ epilogue_events (file (sess started)))%list).
Proof.
  assert (H1 : run read_decimal stopped_run started = Ok tt (after stopped_run))
    by (vm_compute; reflexivity).
  assert (H2 : run read_decimal stopped_at_once started = Ok tt (after stopped_at_once))
    by (vm_compute; reflexivity).
  split.
  - destruct (X15_why_a_run_returns read_decimal stopped_run started _ H1)
      as ([Hs | He] & _ & Hw).
    + discriminate Hs.
    + split; [exact He|exact Hw].
  - destruct (X15_why_a_run_returns read_decimal stopped_at_once started _ H2)
      as (_ & Hd & _).
    apply Hd. reflexivity.
Defined.

End MoreConcrete.
